(* ===== verification/_CoqProject ===== *)
-Q . S2P
Prelude.v
Registry.v
Vdom.v
Observer.v
State.v
Content.v
View.v
Encoding.v
Tracker.v
Lifecycle.v
Geometry.v
Scrolling.v
Refinement.v
Anchors.v
Animations.v
