(* ===== verification/Prelude.v ===== *)
(** * Verification of the portfolio page (src/app/page.tsx)

    The repository is one React client component, [Portfolio], rendering a
    single-page resume.  Its logic is small but stateful:
    - a section registry: the [sectionRefs] object of six [useRef]s
      (lines 17-24), keyed hero, about, experience, education, skills,
      contact;
    - an active-section tracker: a [useEffect(..., [])] (lines 57-84) that
      sets [mounted], creates one [IntersectionObserver] per section whose
      ref holds a node, whose callback writes [activeSection], and whose
      destroy function disconnects them;
    - [scrollToSection] (lines 87-93): close the mobile menu, look the id
      up in [sectionRefs], [scrollIntoView] its node;
    - the render (lines 95-790): [null] until [mounted], then the header
      (desktop nav, theme button, menu button, mobile menu) and the six
      [<section ref=...>] elements with their hard-coded content, among
      them an uncontrolled Radix [Tabs] in the Skills section;
    - the animations: three framer-motion variant objects (lines 27-54)
      and the [initial]/[animate]/[whileInView]/[exit]/[transition] props
      of every [motion.*] element.
    They interact through React: the effect runs after a commit, refs are
    written at commit, handlers run on clicks of rendered elements, state
    updates trigger a re-render.

    ** Files (in dependency order)
    - [Prelude]: this header, the [portfolio_scope] notations ([===],
      [!==] for JavaScript strict (in)equality), the [portfolio] hint and
      [portfolio_rw] rewrite databases, the tactics [case_str],
      [decide_prop], [invc], association lists ([assoc], the model of an
      object literal's own properties), [fold_left_overwrite] (last write
      wins) and the [result]/[JsError] type of code that throws.
    - [Registry] (Module [Registry]): [sectionRefs], [Ref], [Object_keys],
      [Object_entries]; [js_index]/[js_current] model [sectionRefs[id].current]
      with the [Object.prototype] fallback and the [TypeError] on
      [undefined]; [nav_label] is [charAt(0).toUpperCase() + slice(1)]
      (ASCII upper-casing, the ids being ASCII).
    - [Vdom]: rendered trees ([vnode]: tag, key, attributes, ref, click
      [handler], children), pre-order collectors ([collect]: refs,
      handlers, attributes), the induction principle [vnode_ind'] and the
      [vdom_simpl] tactic.
    - [Observer]: the browser side of [IntersectionObserver]: observer
      objects in a store indexed by creation order ([observe],
      [disconnect]), the [observerOptions] of lines 61-64, entries and the
      delivery condition [deliverable] (entries only for observed targets).
    - [State]: [Page], the state of the component and its context (theme
      store value, [mounted], [mobileMenuOpen], [activeSection], refs,
      observer store, the effect's destroy function, lifecycle [phase],
      the log of [scrollIntoView] requests, the Tabs value), its initial
      value and the setters ([setState] is a no-op once unmounted).
    - [Content]: the hard-coded lists (badges, jobs, modules, skill and
      language bars, contact items) and their [.map] callbacks.
    - [View]: [render] and its parts, one definition per JSX block, and the
      properties of the rendered page.
    - [Tracker]: React's [commit] of refs, the effect [mount_effect] with
      [attach_observer], [observer_callback] and [run_cleanup],
      [scrollToSection], the click [dispatch], and their properties.
    - [Lifecycle]: the lifecycle as a step relation [step] (mount, click
      on a rendered handler, delivery of entries, unmount), the
      interpreter [exec] proved equal to it ([exec_step]), traces [run],
      [reachable] states, and the properties over reachable states.
    - [Encoding]: UTF-8 on code points below U+0800 with its round trip,
      and the bytes of the footer's copyright text.
    - [Geometry]: the browser's "update intersection observations"
      steps for the page's options: the root band [[0.2 H, 0.8 H]] from
      the -20% margins, the 0.2 threshold index, [isIntersecting] with
      edge adjacency, the previous observation of each (observer, target)
      pair, and one rendering [frame] that yields the deliveries in
      creation order, each satisfying the platform's delivery condition.
      Vertical extents only (full-width sections, 0px horizontal
      margins); integer coordinates in hundredths of a pixel, so every
      percentage is exact.
    - [Scrolling]: a frame composed with [Lifecycle.run]
      ([scroll_frame]).
    - [Refinement]: the abstract machine of spec section 4.2 ([astep]
      over active id, menu flag and lifecycle phase), the abstraction
      [abs]/[abs_event], and the refinement of [Lifecycle.run] into it.
    - [Anchors]: the registry interface of spec section 4.1 as the class
      [AnchorRegistry] ([allSectionIds], [anchor], [registerAnchor],
      [detachAll]) with its instance on the [sectionRefs] object, and
      [scrollToSection] stated against it.
    - [Animations]: the motion components of the page as a tree ([mnode],
      one definition per JSX block, [motion_page] per state), and
      framer-motion's resolution of their props as the platform semantics:
      label inheritance from the controlling ancestor, the variant's
      [transition] over the [transition] prop, [staggerChildren] offsets,
      [viewport.once], [exit] only under [AnimatePresence].  [plan]
      flattens a tree into one [Entry] per component (start and end pose,
      trigger, delay used and delay written, exit); [pose] is what an
      element shows after a history of viewport observations.

    ** What the theorems show (claim ids of the manifest)
    - The mount-order defect (C1, C2): the first render returns [null],
      so the effect, which runs after that commit and never again, sees
      only [null] refs and creates no observer (C1, by the invariant
      [quiet] of every reachable state); the active section is "hero"
      forever (C2).
    - The tracker's own logic, which is right (C3-C5, C9): with attached
      refs the effect creates one observer per section with the options
      of lines 61-64 (C3); concurrent callbacks resolve by arrival order,
      last writer wins (C4); every run of events keeps the tracked ids
      among the registered ones (C5); the destroy function disconnects
      exactly the effect's observers (C9).
    - Navigation (C6-C8, C10, C11, C24): [scrollToSection] on registered
      ids (C6) and on other strings, which throws a [TypeError] unless the
      string names an [Object.prototype] member (C7); no rendered click
      throws (C8); the links rendered (C10); the menu button and the
      closing of the menu (C11); [scrollToSection] reads the registry
      only through the [anchor] of the interface of spec section 4.1: it
      scrolls to the anchor of a listed id and only closes the menu when
      that anchor is detached (C24).
    - Theme, page content and tabs (C12-C16): the theme toggle and its
      non-binary inputs (C12); [target="_blank"] links carry
      [rel="noopener noreferrer"] (C13); bar widths are at most 100% (C14);
      in-page links resolve to ids (C15); the tab triggers select the panel
      drawn (C16).
    - Viewport tracking (C17), about any store of observers, such as the
      one the effect creates once the refs hold nodes: a frame's
      deliveries run to completion and the last observer with an
      intersecting entry wins.
    - The refinement of spec section 4.2 (C18): every run of the page from a
      registered state is a run of the abstract machine along the mapped
      events; the machine's [AEnter] steps are the ones the page never
      takes (C1, C2).
    - React's key rule holds for every rendered tree (C19); the footer's
      copyright text is doubly UTF-8 encoded (C20).
    - Animations (C21-C23): every motion element settles at opacity 1,
      scale 1 and its layout position once triggered, and stays there
      ([viewport.once]) (C21); the delays written on the second About
      paragraph and on the duty and module list items are overridden by
      their variants' transitions (C22); the mobile menu's [exit] never
      plays, no [AnimatePresence] being rendered (C23).
    Each theorem with hypotheses has a [_witness] lemma applying it to a
    concrete state, most of them to [scenario_page], the state reached by
    the scenario of spec section 8.

    ** Bounds and fuel
    Every definition is structurally recursive (lists, strings, trees by
    [vnode_ind'], byte lists); no fuel is needed.  [run] consumes a finite
    trace.  The footer year is
    a section variable ([N]) of [Lifecycle]; it only feeds a text node.
    Geometry is in unbounded [Z]: scroll offsets and heights are CSS
    pixels, far from any machine bound, and scaling by 100 keeps the
    percentages of the options exact.  Animation values and times are
    integers in hundredths (every literal of the code has at most two
    decimals), so delays such as [0.1 * index] are exact.

    ** Not modelled
    - The page layout: section offsets and heights are inputs of
      [Geometry] (they depend on fonts and viewport width); the horizontal
      dimension and clipping by ancestors are not modelled.
    - The smooth-scroll animation: [scrollIntoView] is recorded as a
      request in [scrolls]; the frames it causes would be [Scrolling]
      frames at the scroll positions the animation passes through.
    - The interpolation of animations frame by frame (easing curves and
      durations are kept as data, only start and end poses and start
      delays are derived), hover and tap gestures ([whileHover],
      [whileTap] are kept as props), and the [amount] of [viewport]
      (kept as data; the in-view history is an input of [pose]).
    - The UI library's styling and icons (kept as element names),
      next-themes persistence (the theme store value is a field written by
      [setTheme]), Radix keyboard navigation: library behaviour the code
      only calls; and the commented-out details block of lines 300-372,
      which is not rendered.
    - React batching: updates of one handler are applied in order before
      the next event; all updates in the code are plain values, so the
      last write is what React renders.

    ** Coverage
    Every line of page.tsx but the imports and comments is translated by a
    definition of the files above; what is left out is the behaviour of
    the libraries the code calls, listed under "Not modelled". *)

From stdpp Require Import base list sets strings.
From Stdlib Require Import Ascii.

Declare Scope portfolio_scope.
Delimit Scope portfolio_scope with portfolio.
Open Scope string_scope.

(** JavaScript strict (in)equality on strings, as written in the source
    ([activeSection === section], [section !== "hero"]). *)
Notation "a === b" := (String.eqb a b) (at level 70, no associativity) : portfolio_scope.
Notation "a !== b" := (negb (String.eqb a b)) (at level 70, no associativity) : portfolio_scope.

Open Scope portfolio_scope.
(** [++] is list append; JavaScript string [+] is stdpp's [+:+]. *)
Open Scope list_scope.

(** ** Association lists keyed by strings

    A JavaScript object literal is an ordered list of own properties:
    [Object.keys]/[Object.entries] enumerate them in insertion order. *)
Fixpoint assoc {A} (k : string) (l : list (string * A)) : option A :=
  match l with
  | [] => None
  | (k', v) :: l' => if k' === k then Some v else assoc k l'
  end.

Create HintDb portfolio discriminated.
Create Rewrite HintDb portfolio_rw.

Ltac invc H := inversion H; subst; clear H.

(** Close a decidable goal on concrete data by evaluation. *)
Ltac decide_prop := match goal with |- ?P => apply (bool_decide_unpack P); vm_compute; exact I end.

(** Case analysis on a string comparison of the code. *)
Ltac case_str a b :=
  destruct (String.eqb_spec a b); subst; simpl in *.

Section Assoc.
Context {A : Type}.
Implicit Types (l : list (string * A)) (k : string) (v : A).

Lemma assoc_Some_in l k v : assoc k l = Some v -> k ∈ l.*1.
Proof.
  induction l as [|[k' v'] l IH]; simpl; [done|].
  case_str k' k; [set_solver|]. intros H; apply IH in H. set_solver.
Qed.

Lemma assoc_None_iff l k : assoc k l = None <-> k ∉ l.*1.
Proof.
  induction l as [|[k' v'] l IH]; simpl; [set_solver|].
  case_str k' k; [split; [done|set_solver]|].
  rewrite IH. set_solver.
Qed.

Lemma assoc_in_Some l k : k ∈ l.*1 -> exists v, assoc k l = Some v.
Proof.
  intros Hk. destruct (assoc k l) eqn:E; [eauto|].
  apply assoc_None_iff in E. done.
Qed.

Lemma assoc_map {B} (f : A -> B) l k :
  assoc k ((fun kv => (kv.1, f kv.2)) <$> l) = f <$> assoc k l.
Proof.
  induction l as [|[k' v'] l IH]; simpl; [done|].
  by destruct (k' === k).
Qed.
End Assoc.

(** ** Last write wins

    A loop that overwrites the same state on each matching item (such as
    [entries.forEach(e => { if (e.isIntersecting) setActiveSection(id) })])
    ends in the overwritten state exactly when some item matched. *)
Lemma fold_left_overwrite {S E} (p : E -> bool) (upd : S -> S) (es : list E) (s : S) :
  (forall s, upd (upd s) = upd s) ->
  fold_left (fun acc e => if p e then upd acc else acc) es s =
  if existsb p es then upd s else s.
Proof.
  intros Hidem. revert s. induction es as [|e es IH]; intros s; simpl; [done|].
  rewrite IH. destruct (p e), (existsb p es); simpl; rewrite ?Hidem; done.
Qed.

Lemma existsb_elem_of {E} (p : E -> bool) (es : list E) :
  existsb p es = true <-> exists e, e ∈ es /\ p e = true.
Proof.
  rewrite existsb_exists. setoid_rewrite list_elem_of_In. done.
Qed.

Lemma option_list_Some {A} (x : A) : option_list (Some x) = [x].
Proof. done. Qed.

Lemma option_list_None {A} : option_list (@None A) = [].
Proof. done. Qed.

#[export] Hint Resolve assoc_Some_in : portfolio.
#[export] Hint Rewrite @option_list_Some @option_list_None @app_nil_r : portfolio_rw.
#[export] Hint Rewrite String.eqb_refl : portfolio_rw.

(** ** JavaScript exceptions

    Code that can throw returns a [result]: [Ok] with its value, or [Err]
    with the exception raised (a [TypeError] when a property is read from
    [undefined]). *)
Inductive JsError := TypeError (message : string).

Inductive result (A : Type) :=
| Ok (a : A)
| Err (e : JsError).
Arguments Ok {A} a.
Arguments Err {A} e.
