(* ===== verification/Registry.v ===== *)
(** * Section registry: the [sectionRefs] object (page.tsx lines 17-24)

    Six [useRef<null>(null)] objects keyed by section id, in the order the
    object literal lists them.  [Object.keys]/[Object.entries] enumerate
    that order; [sectionRefs[id]] is a JavaScript property read, which
    falls back to [Object.prototype] and yields [undefined] for any other
    string.  React writes the [current] field of each ref when it commits
    a [<section ref=...>] element (see [View] and [Tracker]). *)

From stdpp Require Import base list sets strings.
From Stdlib Require Import Ascii.
From S2P Require Import Prelude.

Module Registry.

(** The DOM node a ref can hold: the [<section>] element rendered for a
    key of [sectionRefs]. *)
Inductive Element := SectionEl (key : string).

#[export] Instance Element_eq_dec : EqDecision Element.
Proof. solve_decision. Defined.

(** A [useRef] object; [current] is [null] until React commits the element. *)
Record Ref := { current : option Element }.

(** The [sectionRefs] object literal: own properties in insertion order. *)
Notation SectionRefs := (list (string * Ref)) (only parsing).

Definition sectionRefs : SectionRefs :=
  [("hero", {| current := None |});
   ("about", {| current := None |});
   ("experience", {| current := None |});
   ("education", {| current := None |});
   ("skills", {| current := None |});
   ("contact", {| current := None |})].

Definition Object_keys (o : SectionRefs) : list string := o.*1.
Definition Object_entries (o : SectionRefs) : list (string * Ref) := o.

(** The registered section ids, in order. *)
Definition section_keys : list string := Object_keys sectionRefs.

(** The members every object inherits from [Object.prototype]: reading
    one of these names from [sectionRefs] yields a function (or the
    prototype itself), never [undefined]. *)
Definition Object_prototype : list string :=
  ["constructor"; "__defineGetter__"; "__defineSetter__"; "hasOwnProperty";
   "__lookupGetter__"; "__lookupSetter__"; "isPrototypeOf";
   "propertyIsEnumerable"; "toString"; "valueOf"; "__proto__";
   "toLocaleString"].

(** The value of [sectionRefs[k]]. *)
Inductive JsValue :=
| JsRef (r : Ref)
| JsInherited (name : string)
| JsUndefined.

Definition js_index (o : SectionRefs) (k : string) : JsValue :=
  match assoc k o with
  | Some r => JsRef r
  | None => if bool_decide (k ∈ Object_prototype) then JsInherited k else JsUndefined
  end.

(** [v.current]: a ref's node; [undefined] (no node) on an inherited
    function; a [TypeError] on [undefined]. *)
Definition js_current (v : JsValue) : result (option Element) :=
  match v with
  | JsRef r => Ok (current r)
  | JsInherited _ => Ok None
  | JsUndefined => Err (TypeError "Cannot read properties of undefined (reading 'current')")
  end.

(** ** Nav labels: [section.charAt(0).toUpperCase() + section.slice(1)]

    [toUpperCase] is modelled on ASCII letters, the only characters of the
    section ids. *)
Definition charAt0 (s : string) : string :=
  match s with
  | EmptyString => ""
  | String c _ => String c ""
  end.

Definition slice1 (s : string) : string :=
  match s with
  | EmptyString => ""
  | String _ r => r
  end.

Definition ascii_toUpperCase (c : ascii) : ascii :=
  let n := nat_of_ascii c in
  if (97 <=? n)%nat && (n <=? 122)%nat then ascii_of_nat (n - 32) else c.

Fixpoint toUpperCase (s : string) : string :=
  match s with
  | EmptyString => EmptyString
  | String c r => String (ascii_toUpperCase c) (toUpperCase r)
  end.

Definition nav_label (section : string) : string :=
  toUpperCase (charAt0 section) +:+ slice1 section.

End Registry.
