(* ===== verification/Vdom.v ===== *)
(** * Rendered trees: the JSX of [Portfolio] as data

    A [vnode] is a JSX element after evaluation of its expressions: tag,
    React [key], attributes (className, href, target, rel, id, ...), the
    [ref] it binds (the [sectionRefs] key) and its [onClick] handler, then
    its children.  [false] children (from [cond && <a/>]) are dropped as
    React drops them.  Animation props of [motion.*] components are not
    kept here: [Animations] models them on a tree of its own.

    The collectors walk a tree in document (pre-)order: the refs React
    attaches at commit, the handlers a user can click, the attributes. *)

From stdpp Require Import base list sets strings.
From S2P Require Import Prelude.

Module Vdom.

(** The click handlers the page installs. *)
Inductive handler :=
| OnNavClick (section : string)  (** [(e) => { e.preventDefault(); scrollToSection(section) }] *)
| OnThemeClick                   (** [() => setTheme(theme === "dark" ? "light" : "dark")] *)
| OnMenuClick                    (** [() => setMobileMenuOpen(!mobileMenuOpen)] *)
| OnTabTrigger (value : string). (** Radix [TabsTrigger value=...] *)

#[export] Instance handler_eq_dec : EqDecision handler.
Proof. solve_decision. Defined.

Inductive vnode :=
| Text (s : string)
| Elem (tag : string) (key : option string) (attrs : list (string * string))
       (ref : option string) (onClick : option handler) (children : list vnode).

(** An element without key, ref or handler. *)
Definition el (tag : string) (attrs : list (string * string)) (cs : list vnode) : vnode :=
  Elem tag None attrs None None cs.

(** Pre-order collection of what [f] reads at each node. *)
Fixpoint collect {A} (f : vnode -> list A) (v : vnode) : list A :=
  f v ++
  match v with
  | Text _ => []
  | Elem _ _ _ _ _ cs => (fix go cs := match cs with
                                      | [] => []
                                      | c :: cs' => collect f c ++ go cs'
                                      end) cs
  end.

Definition collect_list {A} (f : vnode -> list A) (vs : list vnode) : list A :=
  vs ≫= collect f.

Definition node_refs (v : vnode) : list string :=
  match v with Elem _ _ _ (Some r) _ _ => [r] | _ => [] end.

Definition node_handlers (v : vnode) : list handler :=
  match v with Elem _ _ _ _ (Some h) _ => [h] | _ => [] end.

Definition node_attrs (v : vnode) : list (list (string * string)) :=
  match v with Elem _ _ attrs _ _ _ => [attrs] | Text _ => [] end.

(** The value of attribute [name] at a node, if the node has it. *)
Definition node_attr (name : string) (v : vnode) : list string :=
  omap (assoc name) (node_attrs v).

Definition node_texts (v : vnode) : list string :=
  match v with Text s => [s] | _ => [] end.

(** The refs React attaches when it commits the tree, in order. *)
Definition refs_of : vnode -> list string := collect node_refs.
(** The handlers present in the tree: what a user can click. *)
Definition handlers_of : vnode -> list handler := collect node_handlers.

(** React's sibling-key rule: the keyed children of every element have
    pairwise distinct keys. *)
Fixpoint keys_unique (v : vnode) : bool :=
  match v with
  | Text _ => true
  | Elem _ _ _ _ _ cs =>
      bool_decide (NoDup (omap (fun c => match c with Elem _ k _ _ _ _ => k | _ => None end) cs)) &&
      forallb keys_unique cs
  end.

(** Induction over trees, with the hypothesis on every child. *)
Fixpoint vnode_ind' (P : vnode -> Prop) (HT : forall s, P (Text s))
  (HE : forall t k a r h cs, Forall P cs -> P (Elem t k a r h cs)) (v : vnode) : P v :=
  match v with
  | Text s => HT s
  | Elem t k a r h cs =>
      HE t k a r h cs ((fix go cs : Forall P cs :=
                          match cs with
                          | [] => Forall_nil_2 _
                          | c :: cs' => Forall_cons_2 _ _ _ (vnode_ind' P HT HE c) (go cs')
                          end) cs)
  end.

Lemma collect_Elem {A} (f : vnode -> list A) t k a r h cs :
  collect f (Elem t k a r h cs) = f (Elem t k a r h cs) ++ collect_list f cs.
Proof.
  reflexivity.
Qed.

Lemma collect_Text {A} (f : vnode -> list A) s : collect f (Text s) = f (Text s).
Proof. simpl. by rewrite app_nil_r. Qed.

Lemma collect_list_cons {A} (f : vnode -> list A) v vs :
  collect_list f (v :: vs) = collect f v ++ collect_list f vs.
Proof. done. Qed.

Lemma collect_list_app {A} (f : vnode -> list A) vs ws :
  collect_list f (vs ++ ws) = collect_list f vs ++ collect_list f ws.
Proof. unfold collect_list. by rewrite bind_app. Qed.

Lemma collect_list_nil {A} (f : vnode -> list A) : collect_list f [] = [].
Proof. done. Qed.

Lemma elem_of_collect_list {A} (f : vnode -> list A) vs x :
  x ∈ collect_list f vs <-> exists v, v ∈ vs /\ x ∈ collect f v.
Proof. unfold collect_list. rewrite list_elem_of_bind. naive_solver. Qed.

Lemma collect_list_empty {A} (f : vnode -> list A) vs :
  (forall v, v ∈ vs -> collect f v = []) -> collect_list f vs = [].
Proof.
  induction vs as [|v vs IH]; intros Hall; [done|].
  rewrite collect_list_cons, Hall, IH by set_solver. done.
Qed.

(** Collecting [g] of what [f] reads is reading [g ∘ f]. *)
Lemma collect_omap {A B} (f : vnode -> list A) (g : A -> option B) v :
  collect (fun w => omap g (f w)) v = omap g (collect f v).
Proof.
  induction v as [s|t k a r h cs IH] using vnode_ind'.
  - by rewrite !collect_Text.
  - rewrite !collect_Elem, omap_app. f_equal.
    induction IH as [|c cs Hc _ IHcs]; [done|]. by rewrite !collect_list_cons, omap_app, Hc, IHcs.
Qed.

Lemma collect_attr name v : collect (node_attr name) v = omap (assoc name) (collect node_attrs v).
Proof. apply collect_omap. Qed.

End Vdom.

#[export] Hint Rewrite @Vdom.collect_Elem @Vdom.collect_Text @Vdom.collect_list_cons
  @Vdom.collect_list_app @Vdom.collect_list_nil : portfolio_rw.

(** Unfold the collectors through the constructors of a tree. *)
Ltac vdom_simpl :=
  unfold Vdom.el in *;
  do 2 (autorewrite with portfolio_rw;
        cbn [Vdom.node_refs Vdom.node_handlers Vdom.node_attrs Vdom.node_texts
             app option_list]).
