(* ===== verification/Observer.v ===== *)
(** * The IntersectionObserver platform objects

    The browser keeps every [IntersectionObserver] created by the page in
    creation order; an observer is named by its index in that store, so
    the [observers] array of the effect (page.tsx line 60) and the
    cleanup that disconnects them (line 82) alias the same objects.
    [observe] adds a target (once), [disconnect] drops all targets, and
    the platform only delivers entries for targets an observer observes.
    The options object is the one of page.tsx lines 61-64; the geometry
    that decides [isIntersecting] is the subject of [Geometry]. *)

From stdpp Require Import base list sets strings.
From Stdlib Require Import ZArith.
From S2P Require Import Prelude Registry.
Import Registry.

Module Observer.

(** [observerOptions]: [threshold: 0.2], [rootMargin: "-20% 0px -20% 0px"].
    Ratios and margins are kept in percent. *)
Record Options := {
  threshold_pct : Z;
  margin_top_pct : Z;
  margin_right_px : Z;
  margin_bottom_pct : Z;
  margin_left_px : Z
}.

Definition observerOptions : Options :=
  {| threshold_pct := 20; margin_top_pct := -20; margin_right_px := 0;
     margin_bottom_pct := -20; margin_left_px := 0 |}.

(** An observer: the section id its callback closure captured, its
    options, and the elements it observes. *)
Record IObserver := {
  io_section : string;
  io_options : Options;
  io_targets : list Element
}.

(** [new IntersectionObserver(cb, options)] with the callback of section [id]. *)
Definition new_IntersectionObserver (id : string) (opts : Options) : IObserver :=
  {| io_section := id; io_options := opts; io_targets := [] |}.

(** [observer.observe(el)]: no effect when [el] is already a target. *)
Definition observe (el : Element) (o : IObserver) : IObserver :=
  if bool_decide (el ∈ io_targets o) then o
  else {| io_section := io_section o; io_options := io_options o;
          io_targets := io_targets o ++ [el] |}.

(** [observer.disconnect()]: stop observing every target. *)
Definition disconnect (o : IObserver) : IObserver :=
  {| io_section := io_section o; io_options := io_options o; io_targets := [] |}.

(** The browser's store of observers, by creation order. *)
Notation Store := (list IObserver) (only parsing).

(** Apply [f] to the observer with index [i] (no effect out of range). *)
Definition store_update (f : IObserver -> IObserver) (i : nat) (s : Store) : Store :=
  match s !! i with
  | Some o => <[i := f o]> s
  | None => s
  end.

(** An [IntersectionObserverEntry], reduced to what the callback reads
    and the target it is about. *)
Record Entry := {
  entry_target : Element;
  isIntersecting : bool
}.

(** The platform delivers a batch of entries to observer [i] only when
    the batch is not empty and all its targets are observed by [i]. *)
Definition deliverable (s : Store) (i : nat) (es : list Entry) : bool :=
  match s !! i with
  | Some o => bool_decide (es ≠ []) && forallb (fun e => bool_decide (entry_target e ∈ io_targets o)) es
  | None => false
  end.

(** An observer observes something. *)
Definition observing (o : IObserver) : bool := bool_decide (io_targets o ≠ []).

Lemma deliverable_observing s i es :
  deliverable s i es = true -> exists o, s !! i = Some o /\ observing o = true.
Proof.
  unfold deliverable, observing. destruct (s !! i) as [o|]; [|done].
  intros H. exists o. split; [done|]. apply andb_true_iff in H as [Hne Hall].
  apply bool_decide_eq_true in Hne. destruct es as [|e es]; [done|].
  simpl in Hall. apply andb_true_iff in Hall as [He _]. apply bool_decide_eq_true in He.
  apply bool_decide_eq_true. intros Ht. rewrite Ht in He. set_solver.
Qed.

Lemma disconnect_not_observing o : observing (disconnect o) = false.
Proof. reflexivity. Qed.

Lemma store_update_length f i s : length (store_update f i s) = length s.
Proof. unfold store_update. destruct (s !! i); [apply length_insert|done]. Qed.

Lemma store_update_lookup f i j s :
  store_update f i s !! j = if decide (i = j) then f <$> s !! i else s !! j.
Proof.
  unfold store_update. destruct (s !! i) as [o|] eqn:Hi; case_decide; subst.
  - rewrite list_lookup_insert_eq; [done|]. by eapply lookup_lt_Some.
  - by rewrite list_lookup_insert_ne.
  - done.
  - done.
Qed.

End Observer.
