(* ===== verification/State.v ===== *)
(** * The state of the [Portfolio] component and of its browser context

    [Page] gathers the hook state of [Portfolio] (page.tsx lines 13-24:
    [useTheme], the three [useState] hooks, the six refs), the observers
    the browser holds, the destroy function of the mount effect, the
    React lifecycle phase and the log of [scrollIntoView] calls.

    React's [setState] updaters are modelled as direct writes, flushed
    before the next event (all the code's updates are plain values, so the
    last write of a batch is the value React renders; [fold_left_overwrite]
    in the prelude is that fact).  Once the component is unmounted React
    drops state updates: the setters are then no-ops. *)

From stdpp Require Import base list sets strings.
From S2P Require Import Prelude Registry Observer.
Import Registry Observer.

Module State.

(** The React lifecycle of the component. *)
Inductive Phase := NotMounted | Mounted | Unmounted.

#[export] Instance Phase_eq_dec : EqDecision Phase.
Proof. solve_decision. Defined.

Record Page := {
  theme : option string;          (** [useTheme().theme], [undefined] = [None] *)
  mounted : bool;                 (** [useState(false)] *)
  mobileMenuOpen : bool;          (** [useState(false)] *)
  activeSection : string;         (** [useState("hero")] *)
  refs : SectionRefs;             (** the [current] field of each ref *)
  store : Store;                  (** the browser's IntersectionObservers *)
  cleanup : option (list nat);    (** the effect's destroy function, over [observers] *)
  phase : Phase;
  scrolls : list Element;         (** [scrollIntoView({ behavior: "smooth" })] calls *)
  tab : string                    (** the value of the uncontrolled Skills [Tabs] *)
}.

(** The component before its first render; [t] is what the theme store
    holds (an external collaborator). *)
Definition initial_page (t : option string) : Page :=
  {| theme := t; mounted := false; mobileMenuOpen := false; activeSection := "hero";
     refs := sectionRefs; store := []; cleanup := None; phase := NotMounted;
     scrolls := []; tab := "professional-skills" |}.

(** React's [setState]: dropped after unmount. *)
Definition live (p : Page) : bool := bool_decide (phase p ≠ Unmounted).

Definition setMounted (b : bool) (p : Page) : Page :=
  if live p then
    {| theme := theme p; mounted := b; mobileMenuOpen := mobileMenuOpen p;
       activeSection := activeSection p; refs := refs p; store := store p;
       cleanup := cleanup p; phase := phase p; scrolls := scrolls p; tab := tab p |}
  else p.

Definition setMobileMenuOpen (b : bool) (p : Page) : Page :=
  if live p then
    {| theme := theme p; mounted := mounted p; mobileMenuOpen := b;
       activeSection := activeSection p; refs := refs p; store := store p;
       cleanup := cleanup p; phase := phase p; scrolls := scrolls p; tab := tab p |}
  else p.

Definition setActiveSection (id : string) (p : Page) : Page :=
  if live p then
    {| theme := theme p; mounted := mounted p; mobileMenuOpen := mobileMenuOpen p;
       activeSection := id; refs := refs p; store := store p;
       cleanup := cleanup p; phase := phase p; scrolls := scrolls p; tab := tab p |}
  else p.

(** [setTheme] of next-themes writes the external store. *)
Definition setTheme (t : string) (p : Page) : Page :=
  {| theme := Some t; mounted := mounted p; mobileMenuOpen := mobileMenuOpen p;
     activeSection := activeSection p; refs := refs p; store := store p;
     cleanup := cleanup p; phase := phase p; scrolls := scrolls p; tab := tab p |}.

(** Writes of the React runtime and of the browser (not of the code). *)
Definition with_refs (r : SectionRefs) (p : Page) : Page :=
  {| theme := theme p; mounted := mounted p; mobileMenuOpen := mobileMenuOpen p;
     activeSection := activeSection p; refs := r; store := store p;
     cleanup := cleanup p; phase := phase p; scrolls := scrolls p; tab := tab p |}.

Definition with_store (s : Store) (p : Page) : Page :=
  {| theme := theme p; mounted := mounted p; mobileMenuOpen := mobileMenuOpen p;
     activeSection := activeSection p; refs := refs p; store := s;
     cleanup := cleanup p; phase := phase p; scrolls := scrolls p; tab := tab p |}.

Definition with_cleanup (c : option (list nat)) (p : Page) : Page :=
  {| theme := theme p; mounted := mounted p; mobileMenuOpen := mobileMenuOpen p;
     activeSection := activeSection p; refs := refs p; store := store p;
     cleanup := c; phase := phase p; scrolls := scrolls p; tab := tab p |}.

Definition with_phase (ph : Phase) (p : Page) : Page :=
  {| theme := theme p; mounted := mounted p; mobileMenuOpen := mobileMenuOpen p;
     activeSection := activeSection p; refs := refs p; store := store p;
     cleanup := cleanup p; phase := ph; scrolls := scrolls p; tab := tab p |}.

Definition push_scroll (el : Element) (p : Page) : Page :=
  {| theme := theme p; mounted := mounted p; mobileMenuOpen := mobileMenuOpen p;
     activeSection := activeSection p; refs := refs p; store := store p;
     cleanup := cleanup p; phase := phase p; scrolls := scrolls p ++ [el]; tab := tab p |}.

(** Radix [Tabs]: a click on a [TabsTrigger] selects its value. *)
Definition set_tab (v : string) (p : Page) : Page :=
  {| theme := theme p; mounted := mounted p; mobileMenuOpen := mobileMenuOpen p;
     activeSection := activeSection p; refs := refs p; store := store p;
     cleanup := cleanup p; phase := phase p; scrolls := scrolls p; tab := v |}.

(** The fields each setter leaves alone. *)
Lemma setActiveSection_active id p :
  activeSection (setActiveSection id p) = if live p then id else activeSection p.
Proof. unfold setActiveSection. by destruct (live p). Qed.

Lemma setActiveSection_idem id p :
  setActiveSection id (setActiveSection id p) = setActiveSection id p.
Proof. by destruct p as [? ? ? ? ? ? ? [] ? ?]. Qed.

End State.

#[export] Hint Rewrite State.setActiveSection_active : portfolio_rw.
