(* ===== verification/Content.v ===== *)
(** * The hard-coded content of the page and the [.map] callbacks that
    render it (page.tsx: hero badges 223-235, jobs 393-470, education
    modules 529-560, skill and language bars 595-630 and 637-665,
    contact items 698-746)

    Each list literal of the source is a Rocq list of records with the
    source's fields; each [.map((item, index) => ...)] is a function from
    the list to the rendered children, with the [key] the code gives.
    Icons are kept by component name. *)

From stdpp Require Import base list sets strings pretty.
From S2P Require Import Prelude Vdom.
Import Vdom.

Module Content.

(** ** Hero badges (lines 223-235), keyed by the skill text. *)
Definition hero_badges : list string :=
  ["Administrative Support"; "HR Administration"; "Office Management";
   "Communication"; "Problem Solving"].

Definition render_badge (skill : string) : vnode :=
  Elem "motion.div" (Some skill) [] None None
    [el "Badge" [("className", "bg-rose-100 text-rose-800 hover:bg-rose-200 dark:bg-rose-900/30 dark:text-rose-300")]
        [Text skill]].

(** ** Work experience (lines 393-470) *)
Record Job := { title : string; period : string; company : string; duties : list string }.

Definition jobs : list Job :=
  [{| title := "Office Admin"; period := "Dec 2024 - Present";
      company := "Aayulogic Pvt Ltd, Chakupat, Lalitpur";
      duties := [
        "Providing comprehensive administrative support to ensure efficient office operations";
        "Managing office communications including phone calls, emails, and visitor reception";
        "Coordinating meetings, appointments, and maintaining executive calendars";
        "Handling document management, filing systems, and record keeping";
        "Supporting HR functions and administrative processes";
        "Assisting with office logistics, supplies, and equipment maintenance";
        "Facilitating internal and external communication between teams and departments"] |};
   {| title := "Admin Assistant"; period := "Oct 2021 - Dec 2024";
      company := "Luniva Tech Pvt. Ltd., Kupondole";
      duties := [
        "Provided administrative/HR support to ensure efficient operation of the office";
        "Answered phone calls, scheduled meetings and supported visitors";
        "Carried out administrative duties such as filing, typing, copying, binding, scanning etc.";
        "Assisted with day-to-day operations of the HR functions and duties";
        "Maintained records of employees (hard and soft copies)";
        "Provided clerical and administrative support to executives";
        "Dealt with employee requests regarding human resources issues, rules, and regulations";
        "Coordinated communication with candidates and scheduled interviews";
        "Assisted with the recruitment process by identifying candidates, performing reference checks, and issuing employment contracts"] |}].

(** [list.map((x, index) => ...)]: the callback also receives the index. *)
Definition map_index {A B} (f : A -> nat -> B) (l : list A) : list B :=
  imap (fun i x => f x i) l.

Definition render_duty (duty : string) (dutyIndex : nat) : vnode :=
  Elem "motion.li" (Some (pretty dutyIndex)) [] None None [Text duty].

Definition render_job (job : Job) (index : nat) : vnode :=
  Elem "motion.div" (Some (pretty index)) [("className", "relative")] None None
    [el "motion.div" [("className", "absolute -left-[41px] top-0 h-8 w-8 rounded-full bg-rose-100 dark:bg-rose-900/30 border-4 border-white dark:border-slate-950 flex items-center justify-center")]
        [el "motion.div" [("className", "h-3 w-3 rounded-full bg-rose-500")] []];
     el "div" []
       [el "div" [("className", "flex flex-wrap items-center gap-2 mb-2")]
          [el "h3" [("className", "text-xl font-bold")] [Text (title job)];
           el "Badge" [("variant", "outline"); ("className", "font-normal")] [Text (period job)]];
        el "h4" [("className", "text-lg text-rose-600 dark:text-rose-400 mb-4")] [Text (company job)];
        el "motion.ul" [("className", "list-disc list-outside ml-5 space-y-2")]
          (map_index render_duty (duties job))]].

(** ** Education modules (lines 529-560), keyed by index. *)
Definition modules_left : list string :=
  ["Manage own performance in a business environment"; "Work responsibilities";
   "Events, meetings and activities"; "Support sustainability in a business environment"].

Definition modules_right : list string :=
  ["Manage information and data"; "Leadership and management";
   "Handling problems and operational issues"].

Definition render_module (module : string) (index : nat) : vnode :=
  Elem "motion.li" (Some (pretty index)) [] None None [Text module].

(** ** Skill and language bars (lines 595-630, 637-665) *)
Record Bar := { bar_title : string; desc : string; value : N }.

Definition professional_skills : list Bar :=
  [{| bar_title := "Communication"; desc := "Written and verbal communication skills"; value := 95 |};
   {| bar_title := "Problem Solving"; desc := "Analytical thinking and solutions"; value := 90 |};
   {| bar_title := "Client Handling"; desc := "Customer service and relationship management"; value := 85 |};
   {| bar_title := "Office Management"; desc := "Organizing and maintaining office operations"; value := 95 |};
   {| bar_title := "Microsoft Office 360"; desc := "Word, Excel, PowerPoint, Outlook"; value := 90 |};
   {| bar_title := "Administrative Support"; desc := "Filing, documentation, and record keeping"; value := 95 |};
   {| bar_title := "HR Administration"; desc := "Employee records and recruitment support"; value := 85 |};
   {| bar_title := "Meeting Coordination"; desc := "Scheduling and organizing meetings"; value := 90 |}].

Definition languages : list Bar :=
  [{| bar_title := "Nepali"; desc := "Native proficiency"; value := 100 |};
   {| bar_title := "English"; desc := "Professional working proficiency"; value := 85 |};
   {| bar_title := "Hindi"; desc := "Professional working proficiency"; value := 80 |};
   {| bar_title := "Newari"; desc := "Professional working proficiency"; value := 80 |}].

(** The template literal [`${skill.value}%`]. *)
Definition width_of (b : Bar) : string := pretty (value b) +:+ "%".

Definition render_bar (b : Bar) (index : nat) : vnode :=
  Elem "motion.div" (Some (pretty index)) [] None None
    [el "Card" [("className", "overflow-hidden")]
       [el "CardHeader" [("className", "pb-2")]
          [el "CardTitle" [("className", "text-lg")] [Text (bar_title b)];
           el "CardDescription" [] [Text (desc b)]];
        el "CardContent" []
          [el "motion.div" [("className", "h-2 bg-rose-500 rounded-full"); ("style.width", width_of b)] []]]].

(** ** Contact items (lines 698-746) *)
Record ContactItem := { icon : string; label : string; cvalue : string; link : option string }.

Definition linkedin_url : string := "https://www.linkedin.com/in/sabina-maharjan-602b20239/".

Definition contacts : list ContactItem :=
  [{| icon := "Mail"; label := "Email"; cvalue := "maharjansabina909@gmail.com"; link := None |};
   {| icon := "Phone"; label := "Phone"; cvalue := "+977 9808715629"; link := None |};
   {| icon := "MapPin"; label := "Location"; cvalue := "Sanepa, Lalitpur, Nepal"; link := None |};
   {| icon := "ExternalLink"; label := "LinkedIn"; cvalue := "Sabina Maharjan"; link := Some linkedin_url |}].

(** [{contact.link ? <a href target="_blank" rel=...> : <div>}]. *)
Definition render_contact (c : ContactItem) (index : nat) : vnode :=
  Elem "motion.div" (Some (pretty index)) [("className", "flex items-center gap-3")] None None
    [el "div" [("className", "h-10 w-10 rounded-full bg-rose-100 dark:bg-rose-900/30 flex items-center justify-center")]
        [el (icon c) [("className", "h-5 w-5 text-rose-600 dark:text-rose-400")] []];
     el "div" []
       [el "div" [("className", "text-sm text-muted-foreground")] [Text (label c)];
        match link c with
        | Some l => el "a" [("href", l); ("target", "_blank"); ("rel", "noopener noreferrer");
                            ("className", "hover:text-rose-500")] [Text (cvalue c)]
        | None => el "div" [] [Text (cvalue c)]
        end]].

End Content.
