(* ===== verification/View.v ===== *)
(** * The render function of [Portfolio] (page.tsx lines 95-790)

    [render year p] is the tree the component returns for state [p]:
    [None] while [mounted] is false (lines 95-97), otherwise the page
    [div] with the header (navigation, theme button, menu button, mobile
    menu) and the six [<section>] elements carrying [ref={sectionRefs.k}].
    [year] is [new Date().getFullYear()] of the footer. *)

From stdpp Require Import base list sets strings pretty.
From Stdlib Require Import Ascii.
From S2P Require Import Prelude Registry Vdom Observer State Content.
Import Registry Vdom State Content.

Module View.

(** [theme === "dark"] with [theme] possibly [undefined]. *)
Definition is_dark (t : option string) : bool :=
  match t with Some s => s === "dark" | None => false end.

(** ** Header (lines 102-189) *)

(** The class template of a desktop nav link (line 120-122). *)
Definition desktop_link_class (activeSection section : string) : string :=
  "text-sm font-medium transition-colors " +:+
  (if activeSection === section then "text-rose-500" else "hover:text-rose-500").

(** The class template of a mobile menu link (lines 174-176). *)
Definition mobile_link_class (activeSection section : string) : string :=
  "text-sm font-medium py-2 " +:+
  (if activeSection === section then "text-rose-500" else "hover:text-rose-500").

(** [section !== "hero" && <motion.a key href className onClick>label</motion.a>]
    (lines 114-134); the [index] only feeds the animation delay. *)
Definition desktop_nav_item (activeSection : string) (section : string) (index : nat) : option vnode :=
  if section !== "hero" then
    Some (Elem "motion.a" (Some section)
            [("href", "#" +:+ section); ("className", desktop_link_class activeSection section)]
            None (Some (OnNavClick section)) [Text (nav_label section)])
  else None.

(** Lines 168-185. *)
Definition mobile_nav_item (activeSection : string) (section : string) : option vnode :=
  if section !== "hero" then
    Some (Elem "a" (Some section)
            [("href", "#" +:+ section); ("className", mobile_link_class activeSection section)]
            None (Some (OnNavClick section)) [Text (nav_label section)])
  else None.

Definition desktop_nav (p : Page) : vnode :=
  el "nav" [("className", "hidden md:flex space-x-6")]
    (omap id (map_index (desktop_nav_item (activeSection p)) (Object_keys (refs p)))).

(** [{mobileMenuOpen && <motion.div>...</motion.div>}] (lines 159-188). *)
Definition mobile_menu (p : Page) : option vnode :=
  if mobileMenuOpen p then
    Some (el "motion.div" [("className", "md:hidden absolute top-full left-0 right-0 bg-white dark:bg-slate-900 border-b shadow-lg")]
            [el "div" [("className", "container mx-auto py-4 px-4 flex flex-col space-y-3")]
               (omap (mobile_nav_item (activeSection p)) (Object_keys (refs p)))])
  else None.

(** The theme button (lines 138-148) and the menu button (lines 150-154). *)
Definition theme_button (p : Page) : vnode :=
  Elem "motion.button" None
    [("className", "p-2 rounded-full bg-slate-100 dark:bg-slate-800 text-slate-700 dark:text-slate-200")]
    None (Some OnThemeClick)
    [if is_dark (theme p) then el "Sun" [("size", "18")] [] else el "Moon" [("size", "18")] []].

Definition menu_button (p : Page) : vnode :=
  el "motion.div" [("className", "md:hidden")]
    [Elem "button" None [("className", "p-2")] None (Some OnMenuClick)
       [if mobileMenuOpen p then el "X" [("size", "24")] [] else el "Menu" [("size", "24")] []]].

Definition header (p : Page) : vnode :=
  el "header" [("className", "sticky top-0 z-10 backdrop-blur-md bg-white/80 dark:bg-slate-950/80 border-b")]
    ([el "div" [("className", "container mx-auto px-4 py-3 flex justify-between items-center")]
        [el "motion.h1" [("className", "text-xl font-bold")] [Text "Sabina Maharjan"];
         desktop_nav p;
         el "div" [("className", "flex items-center gap-2")] [theme_button p; menu_button p]]]
     ++ option_list (mobile_menu p)).

(** ** Sections (lines 191-771) *)

(** A section heading: icon and [h2] in an animated row. *)
Definition section_heading (mb icon title : string) : vnode :=
  el "motion.div" [("className", "flex items-center gap-2 " +:+ mb)]
    [el icon [("className", "h-6 w-6 text-rose-500")] [];
     el "h2" [("className", "text-3xl font-bold")] [Text title]].

Definition hero_summary : string :=
  "Dedicated and detail-oriented Administrative Assistant with over 3 years of experience in providing exceptional organizational and administrative support to diverse teams and leadership. Proficient in managing schedules, coordinating meetings, and maintaining accurate records while streamlining office operations through effective communication and multitasking skills.".

(** Lines 192-258: the hero [section] has a ref but no [id]. *)
Definition hero_section : vnode :=
  Elem "section" None [("className", "py-16 md:py-24 container mx-auto px-4")] (Some "hero") None
    [el "div" [("className", "max-w-3xl mx-auto")]
       [el "motion.div" [("className", "text-center mb-8")]
          [el "h1" [("className", "text-4xl md:text-5xl font-bold mb-4")] [Text "Sabina Maharjan"];
           el "h2" [("className", "text-2xl md:text-3xl text-muted-foreground mb-6")] [Text "Office Admin"]];
        el "motion.div" [("className", "bg-white dark:bg-slate-900 rounded-lg shadow-md p-6 mb-8")]
          [el "p" [("className", "text-lg mb-6")] [Text hero_summary];
           el "motion.div" [("className", "flex flex-wrap gap-3 mb-6 justify-center")] (map render_badge hero_badges);
           el "motion.div" [("className", "flex gap-4 justify-center")]
             [el "a" [("href", linkedin_url); ("target", "_blank"); ("rel", "noopener noreferrer")]
                [el "Button" [("className", "bg-rose-600 hover:bg-rose-700")] [Text "Contact Me"]]]]]].

(** Lines 261-376 (the personal and professional details at lines
    300-372 are inside a JSX comment and are not rendered). *)
Definition about_section : vnode :=
  Elem "section" None [("id", "about"); ("className", "py-16 bg-white dark:bg-slate-900")] (Some "about") None
    [el "div" [("className", "container mx-auto px-4")]
       [section_heading "mb-8" "User" "About Me";
        el "div" [("className", "max-w-4xl mx-auto")]
          [el "div" [("className", "space-y-6")]
             [el "motion.p" [("className", "text-lg")]
                [Text "Adept at handling multiple responsibilities in fast-paced environments, with a strong ability to adapt to new tools and processes. Committed to fostering efficiency and a professional atmosphere, ensuring seamless operations and positive team dynamics."];
              el "motion.p" [("className", "text-lg")]
                [Text "Seeking to leverage expertise in a dynamic office environment to contribute to organizational success. My approach combines attention to detail with efficiency, ensuring that both organizational goals and team needs are met."]]]]].

(** Lines 379-474. *)
Definition experience_section : vnode :=
  Elem "section" None [("id", "experience"); ("className", "py-16 bg-slate-50 dark:bg-slate-950")] (Some "experience") None
    [el "div" [("className", "container mx-auto px-4")]
       [section_heading "mb-12" "Briefcase" "Work Experience";
        el "div" [("className", "relative border-l-2 border-rose-200 dark:border-rose-900 pl-8 ml-4 space-y-12 max-w-3xl mx-auto")]
          (map_index render_job jobs)]].

(** Lines 477-565. *)
Definition education_section : vnode :=
  Elem "section" None [("id", "education"); ("className", "py-16 bg-white dark:bg-slate-900")] (Some "education") None
    [el "div" [("className", "container mx-auto px-4")]
       [section_heading "mb-12" "GraduationCap" "Education";
        el "div" [("className", "max-w-3xl mx-auto")]
          [el "motion.div" []
             [el "Card" [("className", "overflow-hidden")]
                [el "motion.div" []
                   [el "CardHeader" []
                      [el "div" [("className", "flex justify-between items-start")]
                         [el "div" []
                            [el "CardTitle" [] [Text "Bachelors of Business Studies"];
                             el "CardDescription" [] [Text "Padma Kanya Multiple Campus, Kathmandu"]];
                          el "Badge" [("variant", "outline")] [Text "Jul 2019 - Dec 2024"]]]];
                 el "motion.div" []
                   [el "CardContent" []
                      [el "h4" [("className", "font-medium mb-3")] [Text "Relevant Modules:"];
                       el "div" [("className", "grid grid-cols-1 md:grid-cols-2 gap-2")]
                         [el "motion.ul" [("className", "list-disc list-inside space-y-1")] (map_index render_module modules_left);
                          el "motion.ul" [("className", "list-disc list-inside space-y-1")] (map_index render_module modules_right)]]]]]]]].

(** Radix [TabsTrigger]: a button marked active when its value is the
    selected one; [TabsContent]: its children are rendered only when its
    value is selected (otherwise the panel is empty and hidden). *)
Definition tabs_trigger (selected v label : string) : vnode :=
  Elem "TabsTrigger" None [("value", v); ("data-state", if selected === v then "active" else "inactive")]
    None (Some (OnTabTrigger v)) [Text label].

Definition tabs_content (selected v : string) (cs : list vnode) : vnode :=
  Elem "TabsContent" None [("value", v); ("className", "space-y-8");
                           ("hidden", if selected === v then "false" else "true")]
    None None (if selected === v then cs else []).

(** Lines 568-670. *)
Definition skills_section (p : Page) : vnode :=
  Elem "section" None [("id", "skills"); ("className", "py-16 bg-slate-50 dark:bg-slate-950")] (Some "skills") None
    [el "div" [("className", "container mx-auto px-4")]
       [el "motion.h2" [("className", "text-3xl font-bold mb-12 text-center")] [Text "Skills & Expertise"];
        el "Tabs" [("defaultValue", "professional-skills"); ("className", "w-full max-w-4xl mx-auto")]
          [el "motion.div" []
             [el "TabsList" [("className", "grid w-full grid-cols-2 mb-8")]
                [tabs_trigger (tab p) "professional-skills" "Professional Skills";
                 tabs_trigger (tab p) "languages" "Languages"]];
           tabs_content (tab p) "professional-skills"
             [el "div" [("className", "grid md:grid-cols-2 gap-6")] (map_index render_bar professional_skills)];
           tabs_content (tab p) "languages"
             [el "div" [("className", "grid md:grid-cols-2 gap-6")] (map_index render_bar languages)]]]].

(** Lines 673-771. *)
Definition contact_section : vnode :=
  Elem "section" None [("id", "contact"); ("className", "py-16 bg-white dark:bg-slate-900")] (Some "contact") None
    [el "div" [("className", "container mx-auto px-4")]
       [el "motion.h2" [("className", "text-3xl font-bold mb-12 text-center")] [Text "Get In Touch"];
        el "div" [("className", "max-w-md mx-auto")]
          [el "motion.div" []
             [el "Card" [("className", "overflow-hidden")]
                [el "CardHeader" []
                   [el "CardTitle" [] [Text "Contact Information"];
                    el "CardDescription" [] [Text "Feel free to reach out for opportunities or inquiries"]];
                 el "CardContent" [("className", "space-y-4")]
                   (map_index render_contact contacts ++
                    [el "motion.div" [("className", "pt-4")]
                       [el "a" [("href", linkedin_url); ("target", "_blank"); ("rel", "noopener noreferrer")]
                          [el "Button" [("className", "w-full bg-rose-600 hover:bg-rose-700")] [Text "Connect with Me"]]]])]]]]].

(** The four bytes the source has before the year (line 786): the UTF-8
    encoding of "Â©", a doubly encoded copyright sign. *)
Definition copyright_as_written : string :=
  String (ascii_of_nat 195) (String (ascii_of_nat 130)
    (String (ascii_of_nat 194) (String (ascii_of_nat 169) " "))).

(** Lines 774-789. *)
Definition footer (year : N) : vnode :=
  el "footer" [("className", "py-8 bg-slate-50 dark:bg-slate-950 border-t")]
    [el "div" [("className", "container mx-auto px-4 text-center")]
       [el "motion.p" [("className", "text-muted-foreground")]
          [Text copyright_as_written; Text (pretty year); Text " Sabina Maharjan. All rights reserved."]]].

(** The whole render (lines 95-790). *)
Definition render (year : N) (p : Page) : option vnode :=
  if negb (mounted p) then None
  else Some (el "div" [("className", "min-h-screen bg-gradient-to-b from-slate-50 to-slate-100 dark:from-slate-950 dark:to-slate-900")]
               [header p; hero_section; about_section; experience_section; education_section;
                skills_section p; contact_section; footer year]).

(** The ids and labels of the navigation, in order. *)
Definition nav_targets : list (string * string) :=
  [("about", "About"); ("experience", "Experience"); ("education", "Education");
   ("skills", "Skills"); ("contact", "Contact")].

(** The attributes of the page below the header, in document order. *)
Definition body_attrs (year : N) (p : Page) : list (list (string * string)) :=
  collect_list node_attrs [hero_section; about_section; experience_section; education_section;
                           skills_section p; contact_section; footer year].

(** A link that opens a new browsing context ([target="_blank"]) does so
    without [window.opener] and without a referrer. *)
Definition opens_safely (attrs : list (string * string)) : Prop :=
  assoc "target" attrs = Some "_blank" -> assoc "rel" attrs = Some "noopener noreferrer".

#[export] Instance opens_safely_dec attrs : Decision (opens_safely attrs).
Proof. unfold opens_safely. apply _. Defined.

(** ** Lemmas on the rendered tree *)

Lemma desktop_items_elem (a : string) (ks : list string) (v : vnode) :
  v ∈ omap id (map_index (desktop_nav_item a) ks) ->
  exists k, k ∈ ks /\ k <> "hero" /\
    v = Elem "motion.a" (Some k) [("href", "#" +:+ k); ("className", desktop_link_class a k)]
          None (Some (OnNavClick k)) [Text (nav_label k)].
Proof.
  rewrite list_elem_of_omap. intros (x & Hx & Hv). destruct x as [x|]; simplify_eq/=.
  apply elem_of_lookup_imap_1 in Hx as (i & k & Hk & Hl).
  unfold desktop_nav_item in Hk. case_str k "hero"; simplify_eq/=.
  exists k. split; [by eapply list_elem_of_lookup_2|done].
Qed.

Lemma mobile_items_elem (a : string) (ks : list string) (v : vnode) :
  v ∈ omap (mobile_nav_item a) ks ->
  exists k, k ∈ ks /\ k <> "hero" /\
    v = Elem "a" (Some k) [("href", "#" +:+ k); ("className", mobile_link_class a k)]
          None (Some (OnNavClick k)) [Text (nav_label k)].
Proof.
  rewrite list_elem_of_omap. intros (k & Hk & Hv).
  unfold mobile_nav_item in Hv. case_str k "hero"; simplify_eq/=. eauto.
Qed.

Lemma header_refs p : refs_of (header p) = [].
Proof.
  unfold refs_of, header, desktop_nav, theme_button, menu_button, mobile_menu.
  vdom_simpl. rewrite collect_list_empty.
  2:{ intros v Hv. apply desktop_items_elem in Hv as (k & _ & _ & ->). done. }
  destruct (is_dark _), (mobileMenuOpen p); vdom_simpl; try done;
  (rewrite collect_list_empty; [done|]);
  intros v Hv; apply mobile_items_elem in Hv as (k & _ & _ & ->); done.
Qed.

(** The attributes of the header: class names, icon sizes, and the
    [href="#k"] of nav links to registered ids other than "hero". *)
Lemma header_attrs p a :
  a ∈ collect node_attrs (header p) ->
  (exists c, a = [("className", c)]) \/ (exists c, a = [("size", c)]) \/
  (exists k c, k ∈ Object_keys (refs p) /\ k <> "hero" /\ a = [("href", "#" +:+ k); ("className", c)]).
Proof.
  unfold header, desktop_nav, theme_button, menu_button, mobile_menu.
  destruct (is_dark _), (mobileMenuOpen p); vdom_simpl; intros Ha;
  rewrite ?elem_of_cons, ?elem_of_app, ?elem_of_cons, ?elem_of_collect_list, ?list_elem_of_singleton in Ha;
  destruct_or? Ha;
  first [ destruct Ha as (v & Hv & Ha);
          first [ apply desktop_items_elem in Hv as (k & Hk & Hne & ->)
                | apply mobile_items_elem in Hv as (k & Hk & Hne & ->) ];
          revert Ha; vdom_simpl; intros Ha; rewrite list_elem_of_singleton in Ha;
          subst; right; right; exists k; eexists; split_and!; [done|done|reflexivity]
        | solve [subst; eauto]
        | apply not_elem_of_nil in Ha; contradiction ].
Qed.

(** The handlers of the header: nav links to registered ids other than
    "hero", the theme button and the menu button. *)
Lemma header_handlers p h :
  h ∈ handlers_of (header p) ->
  (exists k, h = OnNavClick k /\ k ∈ Object_keys (refs p) /\ k <> "hero") \/
  h = OnThemeClick \/ h = OnMenuClick.
Proof.
  unfold handlers_of, header, desktop_nav, theme_button, menu_button, mobile_menu.
  vdom_simpl. destruct (is_dark _), (mobileMenuOpen p); vdom_simpl;
  rewrite ?elem_of_app, ?elem_of_collect_list.
  all: intros H; destruct_or! H;
    first [ destruct H as (v & Hv & Hh);
            first [ apply desktop_items_elem in Hv as (k & Hk & Hne & ->)
                  | apply mobile_items_elem in Hv as (k & Hk & Hne & ->) ];
            vdom_simpl; left; exists k; set_solver
          | right; set_solver ].
Qed.

Lemma skills_refs p : refs_of (skills_section p) = ["skills"].
Proof.
  unfold skills_section, tabs_content, tabs_trigger.
  by destruct (tab p === "professional-skills"), (tab p === "languages").
Qed.

Lemma skills_handlers p :
  handlers_of (skills_section p) = [OnTabTrigger "professional-skills"; OnTabTrigger "languages"].
Proof.
  unfold skills_section, tabs_content, tabs_trigger.
  by destruct (tab p === "professional-skills"), (tab p === "languages").
Qed.

(** A render is [None] exactly when [mounted] is false (lines 95-97). *)
Lemma render_Some year p v : render year p = Some v -> mounted p = true.
Proof. unfold render. by destruct (mounted p). Qed.

Lemma render_None year p : mounted p = false -> render year p = None.
Proof. unfold render. intros ->. done. Qed.

Lemma render_None_iff_unmounted year p : render year p = None <-> mounted p = false.
Proof. unfold render. by destruct (mounted p). Qed.

(** A mounted render carries the six [ref={sectionRefs.k}] bindings, in
    document order. *)
Lemma render_refs year p v :
  render year p = Some v -> refs_of v = ["hero"; "about"; "experience"; "education"; "skills"; "contact"].
Proof.
  unfold render. destruct (mounted p); intros [= <-]. unfold refs_of. vdom_simpl.
  change (collect node_refs (header p)) with (refs_of (header p)).
  change (collect node_refs (skills_section p)) with (refs_of (skills_section p)).
  rewrite header_refs, skills_refs. reflexivity.
Qed.

(** The handlers of a mounted render. *)
Lemma render_handlers year p v h :
  render year p = Some v -> h ∈ handlers_of v ->
  (exists k, h = OnNavClick k /\ k ∈ Object_keys (refs p) /\ k <> "hero") \/
  h = OnThemeClick \/ h = OnMenuClick \/
  h = OnTabTrigger "professional-skills" \/ h = OnTabTrigger "languages".
Proof.
  unfold render. destruct (mounted p); intros [= <-]. unfold handlers_of. vdom_simpl.
  change (collect node_handlers (header p)) with (handlers_of (header p)).
  change (collect node_handlers (skills_section p)) with (handlers_of (skills_section p)).
  rewrite skills_handlers.
  replace (collect node_handlers hero_section) with (@nil handler) by reflexivity.
  replace (collect node_handlers about_section) with (@nil handler) by reflexivity.
  replace (collect node_handlers experience_section) with (@nil handler) by reflexivity.
  replace (collect node_handlers education_section) with (@nil handler) by reflexivity.
  replace (collect node_handlers contact_section) with (@nil handler) by reflexivity.
  replace (collect node_handlers (footer year)) with (@nil handler) by reflexivity.
  intros Hh. rewrite !elem_of_app in Hh. destruct_or! Hh;
    [apply header_handlers in Hh; naive_solver | set_solver ..].
Qed.

Lemma desktop_item_in (a : string) (ks : list string) k :
  k ∈ ks -> k <> "hero" ->
  OnNavClick k ∈ collect_list node_handlers (omap id (map_index (desktop_nav_item a) ks)).
Proof.
  intros Hk Hne. apply list_elem_of_lookup in Hk as [i Hi].
  apply elem_of_collect_list. eexists. split.
  - apply list_elem_of_omap. exists (desktop_nav_item a k i). split.
    + unfold map_index. by apply (elem_of_lookup_imap_2 (fun i x => desktop_nav_item a x i)).
    + unfold desktop_nav_item. destruct (String.eqb_spec k "hero"); [done|]. reflexivity.
  - vdom_simpl. set_solver.
Qed.

(** Every registered id other than "hero" has a clickable nav link. *)
Lemma render_nav_handler year p v k :
  render year p = Some v -> k ∈ Object_keys (refs p) -> k <> "hero" ->
  OnNavClick k ∈ handlers_of v.
Proof.
  unfold render. destruct (mounted p); intros [= <-] Hk Hne. unfold handlers_of, header, desktop_nav.
  vdom_simpl. rewrite !elem_of_app. left. left. left. by apply desktop_item_in.
Qed.

Lemma render_attrs year p v :
  render year p = Some v ->
  collect node_attrs v =
    [[("className", "min-h-screen bg-gradient-to-b from-slate-50 to-slate-100 dark:from-slate-950 dark:to-slate-900")]]
    ++ collect node_attrs (header p) ++ body_attrs year p.
Proof.
  unfold render. destruct (mounted p); intros [= <-]. unfold el. by rewrite collect_Elem, collect_list_cons.
Qed.

(** An attribute the header never sets. *)
Lemma header_no_attr p name :
  name <> "className" -> name <> "size" -> name <> "href" ->
  omap (assoc name) (collect node_attrs (header p)) = [].
Proof.
  intros H1 H2 H3. apply elem_of_nil_inv. intros x Hx.
  apply list_elem_of_omap in Hx as (a & Ha & Hx).
  destruct (header_attrs p a Ha) as [(c & ->)|[(c & ->)|(k & c & _ & _ & ->)]]; cbn [assoc] in Hx;
  repeat match type of Hx with context [String.eqb ?a ?b] => destruct (String.eqb_spec a b) end;
  congruence.
Qed.



(** ** Properties of the rendered navigation *)

(** C10: with the six registered sections, the desktop navigation has one
    link per section except "hero", in registry order, each labelled with
    the capitalised id, pointing at [#id], clicking through to
    [scrollToSection(id)], and highlighted exactly when it is the active
    section; the mobile menu lists the same links while it is open and is
    absent otherwise. *)
Theorem nav_links_render p :
  Object_keys (refs p) = section_keys ->
  desktop_nav p =
    el "nav" [("className", "hidden md:flex space-x-6")]
      ((fun '(k, label) => Elem "motion.a" (Some k)
          [("href", "#" +:+ k); ("className", desktop_link_class (activeSection p) k)]
          None (Some (OnNavClick k)) [Text label]) <$> nav_targets) /\
  mobile_menu p =
    (if mobileMenuOpen p then
       Some (el "motion.div" [("className", "md:hidden absolute top-full left-0 right-0 bg-white dark:bg-slate-900 border-b shadow-lg")]
               [el "div" [("className", "container mx-auto py-4 px-4 flex flex-col space-y-3")]
                  ((fun '(k, label) => Elem "a" (Some k)
                      [("href", "#" +:+ k); ("className", mobile_link_class (activeSection p) k)]
                      None (Some (OnNavClick k)) [Text label]) <$> nav_targets)])
     else None) /\
  (forall k, desktop_link_class (activeSection p) k =
             "text-sm font-medium transition-colors " +:+
             (if bool_decide (activeSection p = k) then "text-rose-500" else "hover:text-rose-500")).
Proof.
  intros Hk. unfold desktop_nav, mobile_menu. rewrite Hk. split; [reflexivity|]. split; [reflexivity|].
  intros k. unfold desktop_link_class. by case_str (activeSection p) k; case_bool_decide.
Qed.

Lemma nav_links_render_witness :
  Object_keys (refs (initial_page None)) = section_keys /\
  desktop_nav (initial_page None) =
    el "nav" [("className", "hidden md:flex space-x-6")]
      ((fun '(k, label) => Elem "motion.a" (Some k)
          [("href", "#" +:+ k); ("className", desktop_link_class (activeSection (initial_page None)) k)]
          None (Some (OnNavClick k)) [Text label]) <$> nav_targets).
Proof.
  assert (H : Object_keys (refs (initial_page None)) = section_keys) by reflexivity.
  split; [exact H|]. exact (proj1 (nav_links_render _ H)).
Defined.

(** ** Properties of the rendered page *)

(** C13: every link of the page that opens a new tab carries
    [rel="noopener noreferrer"], in every state of the page. *)
Theorem external_links_noopener year p v :
  render year p = Some v -> Forall opens_safely (collect node_attrs v).
Proof.
  intros Hv. rewrite (render_attrs year p v Hv). apply Forall_app. split; [decide_prop|].
  apply Forall_app. split.
  - apply Forall_forall. intros a Ha.
    destruct (header_attrs p a Ha) as [(c & ->)|[(c & ->)|(k & c & _ & _ & ->)]]; done.
  - unfold body_attrs, skills_section, tabs_content, tabs_trigger.
    destruct (tab p === "professional-skills"), (tab p === "languages"); decide_prop.
Qed.

Lemma external_links_noopener_witness :
  render 2026 (setMounted true (initial_page None)) <> None /\
  Forall opens_safely
    (collect node_attrs (default (Text "") (render 2026 (setMounted true (initial_page None))))).
Proof.
  split; [discriminate|].
  apply (external_links_noopener 2026 (setMounted true (initial_page None))). reflexivity.
Defined.

(** The widths of the bars of the Skills section: those of the selected
    tab's list, the other panel being empty. *)
Lemma render_widths year p v :
  render year p = Some v ->
  collect (node_attr "style.width") v =
    (if tab p === "professional-skills" then width_of <$> professional_skills else []) ++
    (if tab p === "languages" then width_of <$> languages else []).
Proof.
  intros Hv. rewrite collect_attr, (render_attrs year p v Hv), !omap_app.
  rewrite header_no_attr by discriminate.
  unfold body_attrs, skills_section, tabs_content, tabs_trigger.
  destruct (tab p === "professional-skills"), (tab p === "languages"); vm_compute; reflexivity.
Qed.

(** C14: every bar drawn by the Skills section has a width [n%] with [n]
    at most 100, whichever tab is selected. *)
Theorem skill_bar_widths_bounded year p v :
  render year p = Some v ->
  forall w, w ∈ collect (node_attr "style.width") v ->
  exists b, b ∈ professional_skills ++ languages /\ w = pretty (value b) +:+ "%" /\ (value b <= 100)%N.
Proof.
  intros Hv w Hw. rewrite (render_widths year p v Hv), elem_of_app in Hw.
  assert (Hall : Forall (fun b => (value b <= 100)%N) (professional_skills ++ languages)) by decide_prop.
  rewrite Forall_forall in Hall.
  destruct Hw as [Hw|Hw]; destruct (_ === _); try (by apply not_elem_of_nil in Hw);
    apply list_elem_of_fmap in Hw as (b & -> & Hb); exists b;
    assert (Hb' : b ∈ professional_skills ++ languages) by (rewrite elem_of_app; auto);
    (split_and!; [exact Hb' | done | exact (Hall b Hb')]).
Qed.

Lemma skill_bar_widths_bounded_witness :
  render 2026 (setMounted true (initial_page None)) =
    Some (default (Text "") (render 2026 (setMounted true (initial_page None)))) /\
  exists b, b ∈ professional_skills ++ languages /\ "95%" = pretty (value b) +:+ "%" /\ (value b <= 100)%N.
Proof.
  assert (H : render 2026 (setMounted true (initial_page None)) =
                Some (default (Text "") (render 2026 (setMounted true (initial_page None))))) by reflexivity.
  split; [exact H|]. apply (skill_bar_widths_bounded 2026 _ _ H). vm_compute. left.
Defined.

(** C15: every in-page link [href="#x"] of the page points at an element
    with [id="x"] (the fallback of the nav links without JavaScript),
    in every state of the page. *)
Theorem hash_links_resolve year p v :
  render year p = Some v -> Object_keys (refs p) = section_keys ->
  forall x, ("#" +:+ x) ∈ collect (node_attr "href") v -> x ∈ collect (node_attr "id") v.
Proof.
  intros Hv Hk x Hx. rewrite !collect_attr, (render_attrs year p v Hv), !omap_app in *.
  rewrite (header_no_attr p "id") by discriminate.
  assert (Hids : omap (assoc "id") (body_attrs year p) = ["about"; "experience"; "education"; "skills"; "contact"]).
  { unfold body_attrs, skills_section, tabs_content, tabs_trigger.
    destruct (tab p === "professional-skills"), (tab p === "languages"); vm_compute; reflexivity. }
  assert (Hrefs : omap (assoc "href") (body_attrs year p) = [linkedin_url; linkedin_url; linkedin_url]).
  { unfold body_attrs, skills_section, tabs_content, tabs_trigger.
    destruct (tab p === "professional-skills"), (tab p === "languages"); vm_compute; reflexivity. }
  rewrite Hids. rewrite Hrefs in Hx. rewrite !elem_of_app in Hx.
  destruct Hx as [Hx|[Hx|Hx]].
  - by apply not_elem_of_nil in Hx.
  - apply list_elem_of_omap in Hx as (a & Ha & Hx).
    destruct (header_attrs p a Ha) as [(c & ->)|[(c & ->)|(k & c & Hk' & Hne & ->)]]; try discriminate.
    cbn [assoc] in Hx. simpl in Hx. simplify_eq. rewrite Hk in Hk'.
    change section_keys with ["hero"; "about"; "experience"; "education"; "skills"; "contact"] in Hk'.
    repeat (apply elem_of_cons in Hk' as [->|Hk']; [first [congruence | decide_prop] |]).
    by apply not_elem_of_nil in Hk'.
  - simpl. unfold linkedin_url in Hx. repeat (apply elem_of_cons in Hx as [Hx|Hx]; [discriminate|]).
    by apply not_elem_of_nil in Hx.
Qed.

Lemma hash_links_resolve_witness :
  render 2026 (setMounted true (initial_page None)) =
    Some (default (Text "") (render 2026 (setMounted true (initial_page None)))) /\
  Object_keys (refs (setMounted true (initial_page None))) = section_keys /\
  "skills" ∈ collect (node_attr "id") (default (Text "") (render 2026 (setMounted true (initial_page None)))).
Proof.
  assert (H1 : render 2026 (setMounted true (initial_page None)) =
                 Some (default (Text "") (render 2026 (setMounted true (initial_page None))))) by reflexivity.
  assert (H2 : Object_keys (refs (setMounted true (initial_page None))) = section_keys) by reflexivity.
  split; [exact H1|]. split; [exact H2|].
  apply (hash_links_resolve 2026 _ _ H1 H2). decide_prop.
Defined.

(** C16: after a click on a tab trigger, the Skills section draws the
    bars of that tab's list and none of the other; a value that names no
    tab draws no bar. *)
Theorem tabs_show_selected_panel year p :
  mounted p = true ->
  (collect (node_attr "style.width") <$> render year (set_tab "professional-skills" p)) =
    Some (width_of <$> professional_skills) /\
  (collect (node_attr "style.width") <$> render year (set_tab "languages" p)) =
    Some (width_of <$> languages) /\
  (collect (node_attr "style.width") <$> render year (set_tab "blog" p)) = Some [].
Proof.
  intros Hm.
  assert (Hr : forall v, exists w, render year (set_tab v p) = Some w).
  { intros v. unfold render. simpl. rewrite Hm. eauto. }
  split_and!;
    [destruct (Hr "professional-skills") as [w Hw] | destruct (Hr "languages") as [w Hw]
    | destruct (Hr "blog") as [w Hw]];
    rewrite Hw; simpl; f_equal; rewrite (render_widths year _ w Hw); reflexivity.
Qed.

Lemma tabs_show_selected_panel_witness :
  mounted (setMounted true (initial_page None)) = true /\
  (collect (node_attr "style.width") <$> render 2026 (set_tab "languages" (setMounted true (initial_page None)))) =
    Some (width_of <$> languages).
Proof.
  assert (H : mounted (setMounted true (initial_page None)) = true) by reflexivity.
  split; [exact H|]. exact (proj1 (proj2 (tabs_show_selected_panel 2026 _ H))).
Defined.

(** C19: the page obeys React's key rule: in every state where the refs
    object has its six keys, the keyed children of every element of the
    rendered tree (nav links keyed by section, hero badges by skill text,
    list items, jobs, bars and contact rows by index) have distinct keys. *)
Theorem render_keys_unique year p v :
  Object_keys (refs p) = section_keys -> render year p = Some v -> keys_unique v = true.
Proof.
  intros Hk Hr. unfold render in Hr. destruct (mounted p); [|done]. injection Hr as <-.
  unfold header, desktop_nav, mobile_menu, menu_button, theme_button, skills_section, tabs_content.
  rewrite Hk.
  destruct (mobileMenuOpen p), (is_dark (theme p)), (tab p === "professional-skills"), (tab p === "languages");
    vm_compute; reflexivity.
Qed.

Lemma render_keys_unique_witness :
  Object_keys (refs (setMounted true (initial_page None))) = section_keys /\
  render 2026 (setMounted true (initial_page None)) <> None /\
  keys_unique (default (Text "") (render 2026 (setMounted true (initial_page None)))) = true.
Proof.
  split; [reflexivity|]. split; [discriminate|].
  apply (render_keys_unique 2026 (setMounted true (initial_page None))); reflexivity.
Defined.

End View.
