(* ===== verification/Encoding.v ===== *)
(** * The text encoding of the footer (page.tsx line 786)

    The source is UTF-8; the browser decodes the bytes of each string
    literal into code points.  [utf8_encode] and [utf8_decode] are UTF-8
    on the code points below U+0800 (one and two byte sequences), which
    covers every character of the footer; [utf8_decode] rejects other
    lead bytes and malformed continuations.  The footer's bytes are the
    UTF-8 encoding of the UTF-8 bytes of the copyright sign read as
    Latin-1 characters: the page shows "Â©" where "©" was meant. *)

From stdpp Require Import base list strings.
From Stdlib Require Import Ascii String Lia.
From S2P Require Import Prelude Vdom View.
Import Vdom View.

Module Encoding.

Definition utf8_encode_cp (c : nat) : list nat :=
  if Nat.ltb c 128 then [c] else [(192 + c / 64)%nat; (128 + c mod 64)%nat].

Definition utf8_encode (cs : list nat) : list nat := cs ≫= utf8_encode_cp.

Fixpoint utf8_decode (bs : list nat) : option (list nat) :=
  match bs with
  | [] => Some []
  | b :: bs' =>
      if Nat.ltb b 128 then (b ::.) <$> utf8_decode bs'
      else if Nat.leb 192 b && Nat.ltb b 224 then
        match bs' with
        | b2 :: bs'' =>
            if Nat.leb 128 b2 && Nat.ltb b2 192
            then (fun r => ((b - 192) * 64 + (b2 - 128))%nat :: r) <$> utf8_decode bs''
            else None
        | [] => None
        end
      else None
  end.

(** The bytes of a string literal of the model. *)
Definition bytes (s : string) : list nat := nat_of_ascii <$> list_ascii_of_string s.

(** The copyright sign U+00A9 and the space after it. *)
Definition copyright_sign : list nat := [169; 32].

(** ** Lemmas *)

(** Decoding undoes encoding on one- and two-byte code points. *)
Lemma utf8_decode_encode cs : Forall (fun c => c < 2048) cs -> utf8_decode (utf8_encode cs) = Some cs.
Proof.
  induction 1 as [|c cs Hc _ IH]; [done|].
  unfold utf8_encode in *. rewrite bind_cons.
  destruct (Nat.ltb_spec c 128) as [Hlt|Hge].
  - assert (E : utf8_encode_cp c = [c]) by (unfold utf8_encode_cp; by rewrite (proj2 (Nat.ltb_lt _ _) Hlt)).
    rewrite E. cbn [app utf8_decode]. rewrite (proj2 (Nat.ltb_lt _ _) Hlt), IH. done.
  - assert (E : utf8_encode_cp c = [(192 + c / 64)%nat; (128 + c mod 64)%nat])
      by (unfold utf8_encode_cp; by rewrite (proj2 (Nat.ltb_ge _ _) Hge)).
    assert (Hd : 2 <= c / 64 < 32) by (split; [apply Nat.div_le_lower_bound|apply Nat.div_lt_upper_bound]; lia).
    assert (Hm : c mod 64 < 64) by (apply Nat.mod_upper_bound; lia).
    rewrite E. cbn [app utf8_decode].
    rewrite (proj2 (Nat.ltb_ge _ _)) by lia.
    rewrite (proj2 (Nat.leb_le _ _)), (proj2 (Nat.ltb_lt _ _)) by lia.
    rewrite (proj2 (Nat.leb_le _ _)), (proj2 (Nat.ltb_lt _ _)) by lia.
    rewrite IH. cbv [fmap option_fmap option_map]. f_equal. f_equal. pose proof (Nat.div_mod_eq c 64). lia.
Qed.

(** C20: the footer's copyright text is doubly encoded: its bytes
    (c3 82 c2 a9 20 at line 786) are the UTF-8 encoding of the UTF-8 bytes
    of "© " taken as Latin-1 characters, so the browser decodes them to
    U+00C2 U+00A9 U+0020 and the page shows "Â© 2026" instead of
    "© 2026". *)
Theorem footer_copyright_double_encoded year :
  head (collect node_texts (footer year)) = Some copyright_as_written /\
  bytes copyright_as_written = utf8_encode (utf8_encode copyright_sign) /\
  utf8_decode (bytes copyright_as_written) = Some (utf8_encode copyright_sign) /\
  utf8_decode (bytes copyright_as_written) ≠ Some copyright_sign.
Proof.
  assert (Hb : bytes copyright_as_written = utf8_encode (utf8_encode copyright_sign)) by reflexivity.
  assert (Hd : utf8_decode (bytes copyright_as_written) = Some (utf8_encode copyright_sign)).
  { rewrite Hb. apply utf8_decode_encode. repeat constructor; lia. }
  split; [reflexivity|]. split; [done|]. split; [done|]. rewrite Hd. discriminate.
Qed.

End Encoding.
