(* ===== verification/Tracker.v ===== *)
(** * The active-section tracker and the click handlers

    - [commit]: React's commit of a rendered tree; it writes
      [ref.current] of every key of [sectionRefs], attached for each
      element carrying [ref={sectionRefs.k}] and [null] otherwise.
    - [mount_effect]: the body of the [useEffect(..., [])] of lines 57-84,
      i.e. [setMounted(true)], then one [IntersectionObserver] per entry of
      [sectionRefs] whose [current] is set, its destroy function kept in
      [cleanup]; [observer_callback] is the callback of lines 69-75 and
      [run_cleanup] the destroy function of lines 81-83.
    - [scrollToSection]: lines 87-93, returning the state and the
      exception it throws, if any.
    - [dispatch]: the [onClick] handlers of lines 123-126, 140, 151 and
      177-180, and Radix's tab trigger. *)

From stdpp Require Import base list sets strings.
From S2P Require Import Prelude Registry Vdom Observer State View.
Import Registry Vdom Observer State View.

Module Tracker.

(** ** React's commit of the section refs *)
Definition refs_of_opt (v : option vnode) : list string :=
  match v with Some t => refs_of t | None => [] end.

Definition commit (v : option vnode) (r : SectionRefs) : SectionRefs :=
  (fun kv : string * Ref =>
     (kv.1, {| current := if bool_decide (kv.1 ∈ refs_of_opt v) then Some (SectionEl kv.1) else None |}))
  <$> r.

(** ** The effect (lines 57-84) *)

(** [entries.forEach((entry) => { if (entry.isIntersecting) setActiveSection(id) })]. *)
Definition observer_callback (id : string) (entries : list Entry) (p : Page) : Page :=
  fold_left (fun p e => if isIntersecting e then setActiveSection id p else p) entries p.

(** One iteration of [Object.entries(sectionRefs).forEach(([id, ref]) => ...)]
    (lines 66-79): skip a ref without node, else create the observer,
    observe the node and push it on [observers]. *)
Definition attach_observer (acc : Page * list nat) (entry : string * Ref) : Page * list nat :=
  let '(p, observers) := acc in
  let '(id, ref) := entry in
  match current ref with
  | None => (p, observers)
  | Some node =>
      let observer := observe node (new_IntersectionObserver id observerOptions) in
      (with_store (store p ++ [observer]) p, observers ++ [length (store p)])
  end.

Definition mount_effect (p : Page) : Page :=
  let p1 := setMounted true p in
  let '(p2, observers) := fold_left attach_observer (Object_entries (refs p1)) (p1, []) in
  with_cleanup (Some observers) p2.

(** [() => { observers.forEach((observer) => observer.disconnect()) }]. *)
Definition run_cleanup (p : Page) : Page :=
  match cleanup p with
  | Some observers => with_store (fold_left (fun s i => store_update disconnect i s) observers (store p)) p
  | None => p
  end.

(** ** [scrollToSection] (lines 87-93) *)
Definition scrollToSection (sectionId : string) (p : Page) : Page * option JsError :=
  let p1 := setMobileMenuOpen false p in
  match js_current (js_index (refs p1) sectionId) with
  | Err e => (p1, Some e)
  | Ok None => (p1, None)
  | Ok (Some section) => (push_scroll section p1, None)
  end.

(** Several observers' callbacks fired in one event-loop batch, in the
    order the platform delivers them (spec section 4.2). *)
Definition deliver_batches (batches : list (string * list Entry)) (p : Page) : Page :=
  fold_left (fun p b => observer_callback b.1 b.2 p) batches p.

(** ** Click handlers *)
Definition dispatch (h : handler) (p : Page) : Page * option JsError :=
  match h with
  | OnNavClick section => scrollToSection section p
  | OnThemeClick => (setTheme (if is_dark (theme p) then "light" else "dark") p, None)
  | OnMenuClick => (setMobileMenuOpen (negb (mobileMenuOpen p)) p, None)
  | OnTabTrigger v => (set_tab v p, None)
  end.

(** ** Lemmas *)

(** The observers the loop of lines 66-79 creates for refs [r]. *)
Definition new_observers (r : SectionRefs) : list IObserver :=
  omap (fun kv : string * Ref =>
          (fun node => observe node (new_IntersectionObserver kv.1 observerOptions)) <$> current kv.2) r.

Definition detached (r : SectionRefs) : Prop := Forall (fun kv : string * Ref => current kv.2 = None) r.

Lemma with_store_store p : with_store (store p) p = p.
Proof. by destruct p. Qed.

Lemma with_store_twice s s' p : with_store s (with_store s' p) = with_store s p.
Proof. done. Qed.

Lemma commit_keys v r : Object_keys (commit v r) = Object_keys r.
Proof.
  unfold Object_keys, commit. rewrite <- list_fmap_compose. by apply list_fmap_ext.
Qed.

Lemma commit_None_detached r : detached (commit None r).
Proof. unfold detached, commit. apply Forall_fmap, Forall_forall. done. Qed.

Lemma new_observers_detached r : detached r -> new_observers r = [].
Proof.
  induction 1 as [|[k ref] r Hcur _ IH]; [done|]. simpl in *. unfold new_observers in *.
  simpl. by rewrite Hcur.
Qed.

(** The loop in closed form: it appends [new_observers r] to the store
    and their indices to [observers]. *)
Lemma attach_observers_fold r p obs :
  fold_left attach_observer r (p, obs) =
  (with_store (store p ++ new_observers r) p,
   obs ++ seq (length (store p)) (length (new_observers r))).
Proof.
  revert p obs. induction r as [|[k [[node|]]] r IH]; intros p obs; simpl.
  - by rewrite !app_nil_r, with_store_store.
  - rewrite IH. simpl. rewrite length_app, <- app_assoc. simpl.
    rewrite Nat.add_1_r, with_store_twice, <- app_assoc. done.
  - apply IH.
Qed.

Lemma mount_effect_eq p :
  mount_effect p =
  with_cleanup (Some (seq (length (store p)) (length (new_observers (refs p)))))
    (with_store (store p ++ new_observers (refs p)) (setMounted true p)).
Proof.
  unfold mount_effect. unfold Object_entries.
  assert (Hr : refs (setMounted true p) = refs p) by (unfold setMounted; by destruct (live p)).
  assert (Hs : store (setMounted true p) = store p) by (unfold setMounted; by destruct (live p)).
  rewrite Hr, attach_observers_fold, Hs. done.
Qed.

(** The callback of lines 69-75 in closed form. *)
Lemma observer_callback_eq id es p :
  observer_callback id es p = if existsb isIntersecting es then setActiveSection id p else p.
Proof. apply fold_left_overwrite, setActiveSection_idem. Qed.

(** Disconnecting the observers of a list, one by one. *)
Lemma fold_disconnect_lookup (obs : list nat) (s : list IObserver) i :
  fold_left (fun s i => store_update disconnect i s) obs s !! i =
  if bool_decide (i ∈ obs) then disconnect <$> s !! i else s !! i.
Proof.
  revert s. induction obs as [|j obs IH] using rev_ind; intros s; [done|].
  rewrite fold_left_app; cbn [fold_left]. rewrite store_update_lookup.
  destruct (decide (j = i)) as [->|Hne]; cbv iota beta.
  - rewrite !IH, (bool_decide_ext (i ∈ obs ++ [i]) True) by set_solver.
    destruct (s !! i) as [o|]; [|by repeat case_bool_decide].
    case_bool_decide; simpl; [by destruct o | done].
  - rewrite IH, (bool_decide_ext (i ∈ obs ++ [j]) (i ∈ obs)); [done|]. set_solver.
Qed.

Lemma run_cleanup_lookup p observers i :
  cleanup p = Some observers ->
  store (run_cleanup p) !! i =
  if bool_decide (i ∈ observers) then disconnect <$> store p !! i else store p !! i.
Proof. intros Hc. unfold run_cleanup. rewrite Hc. apply fold_disconnect_lookup. Qed.

Lemma setMobileMenuOpen_refs b p : refs (setMobileMenuOpen b p) = refs p.
Proof. unfold setMobileMenuOpen. by destruct (live p). Qed.

Lemma scrollToSection_js sectionId p :
  scrollToSection sectionId p =
  match js_current (js_index (refs p) sectionId) with
  | Err e => (setMobileMenuOpen false p, Some e)
  | Ok None => (setMobileMenuOpen false p, None)
  | Ok (Some section) => (push_scroll section (setMobileMenuOpen false p), None)
  end.
Proof. unfold scrollToSection. by rewrite setMobileMenuOpen_refs. Qed.

(** [commit] reads only the keys of the refs. *)
Lemma commit_keys_only v r :
  commit v r = (fun k => (k, {| current := if bool_decide (k ∈ refs_of_opt v) then Some (SectionEl k) else None |}))
                 <$> Object_keys r.
Proof. unfold commit, Object_keys. rewrite <- list_fmap_compose. by apply list_fmap_ext. Qed.

(** The refs once every section is committed. *)
Definition attached_refs : SectionRefs :=
  (fun kv : string * Ref => (kv.1, {| current := Some (SectionEl kv.1) |})) <$> sectionRefs.

(** What a click handler leaves alone: the observers, the active
    section, the lifecycle, the effect's destroy function, [mounted] and
    the refs. *)
Definition same_core (p q : Page) : Prop :=
  store q = store p /\ activeSection q = activeSection p /\ phase q = phase p /\
  cleanup q = cleanup p /\ mounted q = mounted p /\ refs q = refs p.

Lemma same_core_setMobileMenuOpen b p : same_core p (setMobileMenuOpen b p).
Proof. unfold same_core, setMobileMenuOpen. destruct (live p); simpl; tauto. Qed.

Lemma same_core_trans p q r : same_core p q -> same_core q r -> same_core p r.
Proof. unfold same_core. intros; destruct_and!; repeat split; congruence. Qed.

Lemma dispatch_same_core h p : same_core p (dispatch h p).1.
Proof.
  destruct h as [s| | |v]; simpl.
  - rewrite scrollToSection_js.
    destruct (js_current _) as [[el|]|e]; simpl; [|apply same_core_setMobileMenuOpen..].
    eapply same_core_trans; [apply same_core_setMobileMenuOpen|].
    unfold same_core, push_scroll; simpl; tauto.
  - unfold same_core, setTheme; simpl; tauto.
  - apply same_core_setMobileMenuOpen.
  - unfold same_core, set_tab; simpl; tauto.
Qed.

(** [scrollToSection] on the three kinds of [sectionId]. *)
Lemma scrollToSection_own p k node :
  assoc k (refs p) = Some {| current := node |} ->
  scrollToSection k p =
  (match node with Some el => push_scroll el | None => id end (setMobileMenuOpen false p), None).
Proof. intros Hk. rewrite scrollToSection_js. unfold js_index. rewrite Hk. by destruct node. Qed.

Lemma scrollToSection_inherited p k :
  k ∉ Object_keys (refs p) -> k ∈ Object_prototype ->
  scrollToSection k p = (setMobileMenuOpen false p, None).
Proof.
  intros Hk Hp. rewrite scrollToSection_js. unfold js_index.
  rewrite (proj2 (assoc_None_iff _ _) Hk), bool_decide_eq_true_2 by done. done.
Qed.

Lemma scrollToSection_undefined p k :
  k ∉ Object_keys (refs p) -> k ∉ Object_prototype ->
  scrollToSection k p =
  (setMobileMenuOpen false p, Some (TypeError "Cannot read properties of undefined (reading 'current')")).
Proof.
  intros Hk Hp. rewrite scrollToSection_js. unfold js_index.
  rewrite (proj2 (assoc_None_iff _ _) Hk), bool_decide_eq_false_2 by done. done.
Qed.

Lemma new_observers_attached r :
  Forall (fun kv : string * Ref => current kv.2 = Some (SectionEl kv.1)) r ->
  new_observers r =
  (fun k => {| io_section := k; io_options := observerOptions; io_targets := [SectionEl k] |}) <$> Object_keys r.
Proof.
  induction 1 as [|[k ref] r Hcur _ IH]; [done|]. unfold new_observers in *. simpl in *.
  rewrite Hcur. simpl. f_equal. exact IH.
Qed.

Lemma observer_callback_phase id es p : phase (observer_callback id es p) = phase p.
Proof. rewrite observer_callback_eq. unfold setActiveSection. by destruct (existsb _ _), (live p). Qed.

Lemma observer_callback_live id es p : live (observer_callback id es p) = live p.
Proof. unfold live. by rewrite observer_callback_phase. Qed.

(** ** Properties of the tracker *)

(** C3: once every ref holds its section's node, the body of the effect
    creates one observer per entry of [sectionRefs], in order, each
    observing that node with the options of lines 61-64, records their
    indices for the destroy function, and sets [mounted]. *)
Theorem mount_effect_one_observer_per_ref p :
  Forall (fun kv : string * Ref => current kv.2 = Some (SectionEl kv.1)) (refs p) ->
  store (mount_effect p) =
    store p ++ ((fun k => {| io_section := k; io_options := observerOptions;
                             io_targets := [SectionEl k] |}) <$> Object_keys (refs p)) /\
  cleanup (mount_effect p) = Some (seq (length (store p)) (length (refs p))) /\
  mounted (mount_effect p) = live p || mounted p.
Proof.
  intros Hall. rewrite mount_effect_eq. unfold setMounted.
  destruct (live p); simpl; rewrite (new_observers_attached _ Hall);
    unfold Object_keys; rewrite !length_fmap; auto.
Qed.

Lemma mount_effect_one_observer_per_ref_witness :
  Forall (fun kv : string * Ref => current kv.2 = Some (SectionEl kv.1)) (refs (with_refs attached_refs (initial_page None))) /\
  store (mount_effect (with_refs attached_refs (initial_page None))) =
    store (with_refs attached_refs (initial_page None)) ++
    ((fun k => {| io_section := k; io_options := observerOptions; io_targets := [SectionEl k] |})
       <$> Object_keys (refs (with_refs attached_refs (initial_page None)))) /\
  cleanup (mount_effect (with_refs attached_refs (initial_page None))) =
    Some (seq (length (store (with_refs attached_refs (initial_page None))))
              (length (refs (with_refs attached_refs (initial_page None))))) /\
  mounted (mount_effect (with_refs attached_refs (initial_page None))) =
    live (with_refs attached_refs (initial_page None)) || mounted (with_refs attached_refs (initial_page None)).
Proof.
  assert (H : Forall (fun kv : string * Ref => current kv.2 = Some (SectionEl kv.1))
                (refs (with_refs attached_refs (initial_page None))))
    by (simpl; repeat constructor).
  split; [exact H|]. exact (mount_effect_one_observer_per_ref _ H).
Defined.

(** C4: when several observers' callbacks fire in one batch, the active
    section is the section of the last batch with an intersecting entry
    (the arrival order decides; nothing else does), or is unchanged when
    no entry intersects or the component is unmounted. *)
Theorem callbacks_last_writer_wins batches p :
  activeSection (deliver_batches batches p) =
  if live p then
    default (activeSection p) (fst <$> last (filter (fun b => existsb isIntersecting b.2) batches))
  else activeSection p.
Proof.
  unfold deliver_batches. induction batches as [|[id es] bs IH] using rev_ind; simpl.
  - by destruct (live p).
  - rewrite fold_left_app. simpl. rewrite observer_callback_eq, filter_app. simpl.
    assert (Hl : live (fold_left (fun p b => observer_callback b.1 b.2 p) bs p) = live p).
    { clear IH. revert p. induction bs as [|b bs IHb]; intros p; simpl; [done|].
      by rewrite IHb, observer_callback_live. }
    destruct (existsb isIntersecting es) eqn:E; simpl.
    + rewrite filter_cons_True, filter_nil by (simpl; by rewrite E).
      rewrite setActiveSection_active, Hl, last_snoc. by destruct (live p).
    + rewrite filter_cons_False, filter_nil, app_nil_r by (simpl; rewrite E; simpl; auto). done.
Qed.

(** C9: the destroy function of the effect disconnects every observer
    the effect created and leaves the observers created before it alone. *)
Theorem effect_cleanup_disconnects_all p :
  take (length (store p)) (store (run_cleanup (mount_effect p))) = store p /\
  Forall (fun o => observing o = false) (drop (length (store p)) (store (run_cleanup (mount_effect p)))).
Proof.
  pose proof (mount_effect_eq p) as Hm.
  assert (Hc : cleanup (mount_effect p) = Some (seq (length (store p)) (length (new_observers (refs p)))))
    by (rewrite Hm; reflexivity).
  assert (Hs : store (mount_effect p) = store p ++ new_observers (refs p))
    by (rewrite Hm; unfold setMounted; by destruct (live p)).
  split.
  - apply list_eq. intros i. destruct (decide (i < length (store p))) as [Hi|Hi].
    + rewrite lookup_take_lt, (run_cleanup_lookup _ _ _ Hc), Hs, lookup_app_l by done.
      rewrite bool_decide_eq_false_2; [done|]. rewrite elem_of_seq. lia.
    + rewrite lookup_take_ge by lia. symmetry. apply lookup_ge_None. lia.
  - apply Forall_lookup. intros i o Ho. rewrite lookup_drop, (run_cleanup_lookup _ _ _ Hc) in Ho.
    rewrite Hs in Ho. case_bool_decide as Hin.
    + destruct (_ !! _); simplify_eq/=. apply disconnect_not_observing.
    + exfalso. apply Hin. apply elem_of_seq. apply lookup_lt_Some in Ho.
      rewrite length_app in Ho. lia.
Qed.

(** C7: [scrollToSection] with an id that is not a key of [sectionRefs]
    closes the mobile menu, then either does nothing more (a name
    inherited from [Object.prototype]) or throws a [TypeError] (any
    other string): [sectionRefs[sectionId]] is [undefined] and the code
    reads [.current] from it. *)
Theorem scrollToSection_unregistered p k :
  k ∉ Object_keys (refs p) ->
  scrollToSection k p =
  (setMobileMenuOpen false p,
   if bool_decide (k ∈ Object_prototype) then None
   else Some (TypeError "Cannot read properties of undefined (reading 'current')")).
Proof.
  intros Hk. case_bool_decide as Hp.
  - by apply scrollToSection_inherited.
  - by apply scrollToSection_undefined.
Qed.

Lemma scrollToSection_unregistered_witness :
  ("blog" ∉ Object_keys (refs (initial_page None))) /\
  scrollToSection "blog" (initial_page None) =
  (setMobileMenuOpen false (initial_page None),
   if bool_decide ("blog" ∈ Object_prototype) then None
   else Some (TypeError "Cannot read properties of undefined (reading 'current')")).
Proof.
  assert (H : "blog" ∉ Object_keys (refs (initial_page None))) by decide_prop.
  split; [exact H|]. exact (scrollToSection_unregistered _ _ H).
Defined.

(** C11: while the component is live, the menu button flips the mobile
    menu, and a click on any nav link closes it, whatever the id. *)
Theorem menu_button_and_nav_close p k :
  live p = true ->
  mobileMenuOpen (dispatch OnMenuClick p).1 = negb (mobileMenuOpen p) /\
  mobileMenuOpen (dispatch (OnNavClick k) p).1 = false.
Proof.
  intros Hl. simpl. rewrite scrollToSection_js. unfold setMobileMenuOpen. rewrite Hl.
  split; [done|]. by destruct (js_current _) as [[]|].
Qed.

Lemma menu_button_and_nav_close_witness :
  live (initial_page None) = true /\
  mobileMenuOpen (dispatch OnMenuClick (initial_page None)).1 = negb (mobileMenuOpen (initial_page None)) /\
  mobileMenuOpen (dispatch (OnNavClick "blog") (initial_page None)).1 = false.
Proof.
  assert (H : live (initial_page None) = true) by reflexivity.
  split; [exact H|]. exact (menu_button_and_nav_close _ "blog" H).
Defined.

(** C12: the theme button writes "light" when the theme is "dark" and
    "dark" otherwise; two clicks restore "dark" or "light", but a theme
    that was [undefined] or "system" comes back as "light", not as what it
    was. *)
Theorem theme_toggle p :
  theme (dispatch OnThemeClick p).1 = Some (if is_dark (theme p) then "light" else "dark") /\
  theme (dispatch OnThemeClick (dispatch OnThemeClick p).1).1 =
    Some (if is_dark (theme p) then "dark" else "light").
Proof. simpl. by destruct (is_dark (theme p)). Qed.

End Tracker.
