(* ===== verification/Lifecycle.v ===== *)
(** * The page's lifecycle as a step relation

    React runs [Portfolio] as follows, and [step] follows it:
    - mount: render with [mounted = false] (the component returns
      [null]), commit (no [<section>] exists, so every ref stays [null]),
      then the passive effect of lines 57-84 runs ([mount_effect]); its
      [setMounted(true)] triggers a second render and commit, which attach
      the six refs.  The effect has dependencies [[]] and does not run
      again;
    - a click on a handler present in the rendered tree runs it
      ([dispatch]), then React re-renders and commits;
    - the platform delivers a non-empty batch of entries to an observer
      that observes their targets; the callback runs, then React
      re-renders;
    - unmount: React detaches the refs and runs the effect's destroy
      function.
    [exec] is the same relation as an interpreter, [run] runs a trace of
    events, and [reachable] is the set of states some trace reaches from
    the initial state. *)

From stdpp Require Import base list sets strings.
From S2P Require Import Prelude Registry Vdom Observer State View Tracker.
Import Registry Vdom Observer State View Tracker.

Module Lifecycle.

Inductive event :=
| EvMount
| EvClick (h : handler)
| EvIntersect (i : nat) (entries : list Entry)
| EvUnmount.

Section WithYear.
(** [new Date().getFullYear()] at every render (the footer only). *)
Variable year : N.

(** Render and commit the refs. *)
Definition flush (p : Page) : Page := with_refs (commit (render year p) (refs p)) p.

Definition mount (p : Page) : Page :=
  flush (mount_effect (with_phase Mounted (flush p))).

Definition unmount (p : Page) : Page :=
  with_refs (commit None (refs p)) (with_phase Unmounted (run_cleanup p)).

(** A handler a user can click: one the rendered tree contains. *)
Definition clickable (p : Page) (h : handler) : bool :=
  match render year p with
  | Some v => bool_decide (h ∈ handlers_of v)
  | None => false
  end.

Inductive step : Page -> event -> Page -> Prop :=
| step_mount p :
    phase p = NotMounted -> step p EvMount (mount p)
| step_click p h :
    phase p = Mounted -> clickable p h = true ->
    step p (EvClick h) (flush (dispatch h p).1)
| step_intersect p i es o :
    deliverable (store p) i es = true -> store p !! i = Some o ->
    step p (EvIntersect i es) (flush (observer_callback (io_section o) es p))
| step_unmount p :
    phase p = Mounted -> step p EvUnmount (unmount p).

Definition exec (p : Page) (ev : event) : option Page :=
  match ev with
  | EvMount => if bool_decide (phase p = NotMounted) then Some (mount p) else None
  | EvClick h =>
      if bool_decide (phase p = Mounted) && clickable p h then Some (flush (dispatch h p).1) else None
  | EvIntersect i es =>
      if deliverable (store p) i es then
        (fun o => flush (observer_callback (io_section o) es p)) <$> store p !! i
      else None
  | EvUnmount => if bool_decide (phase p = Mounted) then Some (unmount p) else None
  end.

Fixpoint run (p : Page) (evs : list event) : option Page :=
  match evs with
  | [] => Some p
  | ev :: evs' => exec p ev ≫= fun p' => run p' evs'
  end.

Inductive reachable : Page -> Prop :=
| reach_init t : reachable (initial_page t)
| reach_step p ev p' : reachable p -> step p ev p' -> reachable p'.

End WithYear.

(** Every id the tracker holds is a key of [sectionRefs]: the active
    section and the section of every observer's callback. *)
Definition registered (p : Page) : Prop :=
  activeSection p ∈ Object_keys (refs p) /\
  Forall (fun o => io_section o ∈ Object_keys (refs p)) (store p).

(** The scenario of spec section 8: load the page, click "Experience". *)
Definition scenario : list event := [EvMount; EvClick (OnNavClick "experience")].

Section Facts.
Variable year : N.

(** The interpreter implements the step relation. *)
Lemma exec_step p ev p' : exec year p ev = Some p' <-> step year p ev p'.
Proof.
  split.
  - destruct ev as [|h|i es|]; simpl; intros H.
    + case_bool_decide; simplify_eq. by constructor.
    + destruct (bool_decide _) eqn:E1, (clickable _ _ _) eqn:E2; simplify_eq/=.
      apply bool_decide_eq_true in E1. by constructor.
    + destruct (deliverable _ _ _) eqn:E; [|done].
      destruct (store p !! i) eqn:Ei; simplify_eq/=. by econstructor.
    + case_bool_decide; simplify_eq. by constructor.
  - induction 1 as [p Hp|p h Hp Hc|p i es o Hd Ho|p Hp]; simpl.
    + by rewrite bool_decide_eq_true_2.
    + by rewrite bool_decide_eq_true_2, Hc.
    + by rewrite Hd, Ho.
    + by rewrite bool_decide_eq_true_2.
Qed.

Lemma run_reachable p evs p' : reachable year p -> run year p evs = Some p' -> reachable year p'.
Proof.
  revert p. induction evs as [|ev evs IH]; simpl; intros p Hp H; [by simplify_eq|].
  destruct (exec year p ev) as [q|] eqn:E; simpl in H; [|done].
  apply (IH q); [|done]. econstructor; [done|]. by apply exec_step.
Qed.

Lemma flush_unmounted p : mounted p = false -> refs (flush year p) = commit None (refs p).
Proof. intros Hm. unfold flush. simpl. by rewrite render_None. Qed.

Lemma flush_mounted p :
  mounted p = true -> Object_keys (refs p) = section_keys -> refs (flush year p) = attached_refs.
Proof.
  intros Hm Hk. unfold flush. simpl. destruct (render year p) as [v|] eqn:E.
  - rewrite commit_keys_only, Hk. simpl. rewrite (render_refs year p v E). reflexivity.
  - unfold render in E. rewrite Hm in E. done.
Qed.

Lemma run_cleanup_store_nil p : store p = [] -> store (run_cleanup p) = [].
Proof.
  intros Hs. apply length_zero_iff_nil. unfold run_cleanup. destruct (cleanup p) as [obs|]; simpl; [|by rewrite Hs].
  generalize (store p) Hs. intros s ->. induction obs as [|i obs IH] using rev_ind; [done|].
  rewrite fold_left_app. simpl. by rewrite store_update_length.
Qed.

(** The invariant of every reachable state: no observer exists, the
    active section is "hero", and the refs are attached exactly while the
    component is mounted. *)
Definition quiet (p : Page) : Prop :=
  store p = [] /\ activeSection p = "hero" /\
  match phase p with
  | NotMounted => mounted p = false /\ refs p = sectionRefs
  | Mounted => mounted p = true /\ refs p = attached_refs
  | Unmounted => refs p = sectionRefs
  end.

Lemma quiet_initial t : quiet (initial_page t).
Proof. done. Qed.

Lemma mount_quiet p : phase p = NotMounted -> quiet p -> quiet (mount year p).
Proof.
  intros Hph (Hs & Ha & Hr). rewrite Hph in Hr. destruct Hr as [Hm Hr].
  unfold mount. set (p1 := with_phase Mounted (flush year p)).
  assert (Hr1 : refs p1 = sectionRefs).
  { change (refs p1) with (refs (flush year p)). rewrite flush_unmounted, Hr by done. reflexivity. }
  assert (Hs1 : store p1 = []) by (unfold p1; simpl; done).
  rewrite mount_effect_eq, Hr1, Hs1. simpl.
  split; [done|]. split; [done|]. simpl. split; [done|].
  apply flush_mounted; simpl; [done|]. by rewrite commit_keys, Hr.
Qed.

Lemma step_quiet p ev p' : quiet p -> step year p ev p' -> quiet p'.
Proof.
  intros Hq Hstep. destruct Hstep as [p Hp|p h Hp Hc|p i es o Hd Ho|p Hp].
  - by apply mount_quiet.
  - destruct (dispatch_same_core h p) as (Hs & Ha & Hph & _ & Hm & Hr).
    destruct Hq as (Hs0 & Ha0 & Hr0). rewrite Hp in Hr0. destruct Hr0 as [Hm0 Hr0].
    split; [simpl; congruence|]. split; [simpl; congruence|]. simpl. rewrite Hph, Hp.
    split; [congruence|]. apply flush_mounted; [congruence|]. rewrite Hr, Hr0. done.
  - destruct Hq as (Hs0 & _). rewrite Hs0 in Ho. done.
  - destruct Hq as (Hs0 & Ha0 & Hr0). rewrite Hp in Hr0. destruct Hr0 as [_ Hr0].
    unfold unmount. simpl. split; [by apply run_cleanup_store_nil|].
    unfold run_cleanup. destruct (cleanup p); simpl; rewrite Hr0; done.
Qed.

Lemma reachable_quiet p : reachable year p -> quiet p.
Proof. induction 1; [apply quiet_initial|]. by eapply step_quiet. Qed.

Lemma run_cons p ev evs : run year p (ev :: evs) = exec year p ev ≫= fun p' => run year p' evs.
Proof. done. Qed.

Lemma flush_keys p : Object_keys (refs (flush year p)) = Object_keys (refs p).
Proof. apply commit_keys. Qed.

Lemma observe_section el o : io_section (observe el o) = io_section o.
Proof. unfold observe. by case_bool_decide. Qed.

Lemma new_observers_sections r : Forall (fun o => io_section o ∈ Object_keys r) (new_observers r).
Proof.
  induction r as [|[k [[node|]]] r IH]; unfold new_observers in *; simpl; [constructor| |].
  - constructor; [rewrite observe_section; simpl; set_solver|].
    eapply Forall_impl; [exact IH|]. simpl. set_solver.
  - eapply Forall_impl; [exact IH|]. simpl. set_solver.
Qed.

Lemma mount_registered p : registered p -> registered (mount year p).
Proof.
  intros [Ha Hs]. unfold mount. rewrite mount_effect_eq.
  set (q := with_phase Mounted (flush year p)).
  assert (Hk : Object_keys (refs q) = Object_keys (refs p)) by apply flush_keys.
  assert (Haq : activeSection q = activeSection p) by reflexivity.
  assert (Hsq : store q = store p) by reflexivity.
  unfold registered. rewrite !flush_keys. cbn [activeSection store flush with_refs].
  unfold setMounted. destruct (live q); cbn [refs activeSection store with_cleanup with_store];
    rewrite Hk, Haq, Hsq; (split; [done|]); apply Forall_app; (split; [done|]);
    (eapply Forall_impl; [apply new_observers_sections| intros o; by rewrite Hk]).
Qed.

Lemma observer_callback_registered id es p :
  id ∈ Object_keys (refs p) -> registered p -> registered (observer_callback id es p).
Proof.
  intros Hid Hr. rewrite observer_callback_eq. destruct (existsb _ _); [|done].
  destruct Hr as [Ha Hs]. unfold setActiveSection, registered. by destruct (live p).
Qed.

Lemma run_cleanup_refs p : refs (run_cleanup p) = refs p.
Proof. unfold run_cleanup. by destruct (cleanup p). Qed.

Lemma run_cleanup_registered p : registered p -> registered (run_cleanup p).
Proof.
  intros [Ha Hs]. destruct (cleanup p) as [obs|] eqn:Hc.
  2:{ unfold run_cleanup. rewrite Hc. by split. }
  assert (Hk : refs (run_cleanup p) = refs p /\ activeSection (run_cleanup p) = activeSection p)
    by (unfold run_cleanup; by rewrite Hc).
  destruct Hk as [Hk Ha']. split; [by rewrite Hk, Ha'|]. rewrite Hk.
  apply Forall_lookup. intros i o Ho. rewrite (run_cleanup_lookup _ _ _ Hc) in Ho.
  rewrite Forall_lookup in Hs.
  case_bool_decide; [|by eapply Hs]. destruct (store p !! i) eqn:E; simplify_eq/=. by eapply Hs.
Qed.

Lemma assoc_attached k : k ∈ section_keys -> assoc k attached_refs = Some {| current := Some (SectionEl k) |}.
Proof. intros Hk. repeat (apply elem_of_cons in Hk as [->|Hk]; [reflexivity|]). set_solver. Qed.

Lemma clickable_nav p k :
  mounted p = true -> k ∈ Object_keys (refs p) -> k <> "hero" -> clickable year p (OnNavClick k) = true.
Proof.
  intros Hm Hk Hne. unfold clickable. destruct (render year p) as [v|] eqn:E.
  - apply bool_decide_eq_true. by eapply render_nav_handler.
  - apply render_None_iff_unmounted in E. congruence.
Qed.


(** Every step keeps the ids the tracker holds among the keys of
    [sectionRefs]. *)
Lemma step_registered p ev p' :
  registered p -> step year p ev p' -> registered p'.
Proof.
  intros Hr Hstep. destruct Hstep as [p Hp|p h Hp Hc|p i es o Hd Ho|p Hp].
  - by apply mount_registered.
  - destruct (dispatch_same_core h p) as (Hs & Ha & _ & _ & _ & Hrf).
    destruct Hr as [Ha0 Hs0]. unfold registered. rewrite flush_keys, Hrf. cbn [flush with_refs store activeSection].
    rewrite Hs, Ha. done.
  - unfold registered. rewrite flush_keys. cbn [flush with_refs store activeSection].
    apply observer_callback_registered; [|done].
    destruct Hr as [_ Hs0]. rewrite Forall_lookup in Hs0. by eapply Hs0.
  - unfold unmount, registered. cbn [with_refs with_phase store activeSection refs].
    rewrite commit_keys. pose proof (run_cleanup_registered p Hr) as H.
    unfold registered in H. by rewrite run_cleanup_refs in H.
Qed.
End Facts.

Section Claims.
Variable year : N.

(** C1: no [IntersectionObserver] is ever created.  The effect of lines
    57-84 runs once, after the first commit; that render returned [null]
    ([mounted] was still false, lines 95-97), so every [ref.current] is
    [null] and the loop skips every section (line 67).  The dependency
    list [[]] keeps the effect from running again once the sections are
    rendered. *)
Theorem no_observer_is_ever_created p : reachable year p -> store p = [].
Proof. intros H. by destruct (reachable_quiet year p H). Qed.

(** C2: consequently the active section never leaves "hero", whatever the
    user scrolls or clicks: the navigation never highlights another item. *)
Theorem active_section_stays_hero p : reachable year p -> activeSection p = "hero".
Proof. intros H. by destruct (reachable_quiet year p H) as (_ & Ha & _). Qed.

(** C5: every run of events keeps the ids the tracker holds among the
    keys of [sectionRefs]: the effect only creates observers for keys, a
    callback only writes its own key, clicks and unmounting write neither
    (the invariant of spec section 3, from any state where it holds, not
    only from the initial one). *)
Theorem run_preserves_registered p evs p' :
  registered p -> run year p evs = Some p' -> registered p'.
Proof.
  revert p. induction evs as [|ev evs IH]; intros p Hr H; simpl in H; [by simplify_eq|].
  destruct (exec year p ev) as [q|] eqn:E; [|done].
  apply (IH q); [|done]. apply exec_step in E. by eapply step_registered.
Qed.

(** C6: after mounting, [scrollToSection] with a registered id closes the
    mobile menu and asks for a smooth scroll to that section's element,
    without throwing; it does not set the active section (spec 4.2). *)
Theorem scrollToSection_registered p k :
  reachable year p -> phase p = Mounted -> k ∈ section_keys ->
  scrollToSection k p = (push_scroll (SectionEl k) (setMobileMenuOpen false p), None).
Proof.
  intros Hreach Hph Hk. destruct (reachable_quiet year p Hreach) as (_ & _ & Hq).
  rewrite Hph in Hq. destruct Hq as [_ Hr].
  apply (scrollToSection_own p k (Some (SectionEl k))). rewrite Hr. by apply assoc_attached.
Qed.

(** C8: no click on the rendered page throws: every nav link passes a
    key of [sectionRefs], so the [TypeError] of C7 is out of reach of the
    user interface. *)
Theorem click_never_throws p h : clickable year p h = true -> (dispatch h p).2 = None.
Proof.
  unfold clickable. destruct (render year p) as [v|] eqn:E; [|done]. intros Hh.
  apply bool_decide_eq_true in Hh.
  destruct (render_handlers year p v h E Hh) as [(k & -> & Hk & _)|Hs]; [|by destruct_or! Hs; subst].
  destruct (assoc_in_Some (refs p) k Hk) as [[node] Hn]. simpl. by rewrite (scrollToSection_own p k node Hn).
Qed.

End Claims.

(** ** Witnesses *)

(** The page after the scenario of spec section 8 (theme [undefined]). *)
Definition scenario_page : Page := default (initial_page None) (run 2026 (initial_page None) scenario).

Lemma scenario_page_reachable : reachable 2026 scenario_page.
Proof. apply (run_reachable 2026 (initial_page None) scenario); [apply reach_init|]. vm_compute. reflexivity. Qed.

Lemma no_observer_is_ever_created_witness : reachable 2026 scenario_page /\ store scenario_page = [].
Proof. split; [exact scenario_page_reachable|]. exact (no_observer_is_ever_created 2026 _ scenario_page_reachable). Defined.

Lemma active_section_stays_hero_witness : reachable 2026 scenario_page /\ activeSection scenario_page = "hero".
Proof. split; [exact scenario_page_reachable|]. exact (active_section_stays_hero 2026 _ scenario_page_reachable). Defined.

Lemma run_preserves_registered_witness :
  registered (initial_page None) /\ run 2026 (initial_page None) scenario = Some scenario_page /\
  registered scenario_page.
Proof.
  assert (H1 : registered (initial_page None)) by (split; [decide_prop|constructor]).
  assert (H2 : run 2026 (initial_page None) scenario = Some scenario_page) by (vm_compute; reflexivity).
  split; [exact H1|]. split; [exact H2|]. exact (run_preserves_registered 2026 _ _ _ H1 H2).
Defined.

Lemma scrollToSection_registered_witness :
  reachable 2026 scenario_page /\ phase scenario_page = Mounted /\ "skills" ∈ section_keys /\
  scrollToSection "skills" scenario_page =
    (push_scroll (SectionEl "skills") (setMobileMenuOpen false scenario_page), None).
Proof.
  assert (H2 : phase scenario_page = Mounted) by (vm_compute; reflexivity).
  assert (H3 : "skills" ∈ section_keys) by decide_prop.
  split; [exact scenario_page_reachable|]. split; [exact H2|]. split; [exact H3|].
  exact (scrollToSection_registered 2026 _ _ scenario_page_reachable H2 H3).
Defined.

Lemma click_never_throws_witness :
  clickable 2026 scenario_page (OnNavClick "contact") = true /\
  (dispatch (OnNavClick "contact") scenario_page).2 = None.
Proof.
  assert (H : clickable 2026 scenario_page (OnNavClick "contact") = true) by (vm_compute; reflexivity).
  split; [exact H|]. exact (click_never_throws 2026 _ _ H).
Defined.

End Lifecycle.
