(* ===== verification/Geometry.v ===== *)
(** * Viewport geometry of IntersectionObserver

    The browser side of the observers of page.tsx lines 61-75: which
    entries a scroll position produces.  This follows the "update
    intersection observations" steps of the IntersectionObserver
    specification, restricted to what the page uses:
    - the root is the viewport; [rootMargin: "-20% 0px -20% 0px"] insets
      its top and bottom edges by 20% of its height, so the root band is
      [0.2 H, 0.8 H] for a viewport of height [H];
    - the [<section>] elements are as wide as the viewport and the
      horizontal margins are [0px], so the intersection is decided by the
      vertical extents alone and the area ratio is the height ratio;
    - with the single threshold [0.2], the threshold index is 0 below a
      ratio of 0.2 and 1 at or above it;
    - an entry is queued for a target when its threshold index or its
      [isIntersecting] (the target and root intersect or are
      edge-adjacent) differs from the previous one, the first observation
      always queuing one.
    Coordinates are integers in hundredths of a CSS pixel: [100 * px]
    makes every percentage of the options exact, so no rounding enters the
    model.  The layout of the sections (document offset and height) is an
    input: it depends on fonts and viewport width, which the code does not
    fix.

    The lemmas show that every delivery of a frame satisfies the
    platform's delivery condition ([Observer.deliverable]), which is what
    [Scrolling.scroll_frame_runs] needs. *)

From stdpp Require Import base list sets strings.
From Stdlib Require Import ZArith Lia.
From S2P Require Import Prelude Registry Observer.
Import Registry Observer.

Module Geometry.

Local Open Scope Z_scope.

(** A vertical extent [lo, hi], in hundredths of a pixel. *)
Record Span := { lo : Z; hi : Z }.

(** A section's box in the document, in pixels. *)
Record Box := { box_top : Z; box_height : Z }.

(** Where each section element lies in the document. *)
Definition Layout := Element -> Box.

(** [window.scrollY] and [window.innerHeight]. *)
Record Viewport := { scrollY : Z; innerHeight : Z }.

(** The root intersection rectangle: the viewport grown by the
    percentage margins (negative margins shrink it). *)
Definition root_span (o : Options) (vp : Viewport) : Span :=
  {| lo := - margin_top_pct o * innerHeight vp;
     hi := 100 * innerHeight vp + margin_bottom_pct o * innerHeight vp |}.

(** A box in viewport coordinates. *)
Definition target_span (b : Box) (vp : Viewport) : Span :=
  {| lo := 100 * (box_top b - scrollY vp);
     hi := 100 * (box_top b - scrollY vp + box_height b) |}.

(** The target and the root intersect or are edge-adjacent. *)
Definition intersects (r t : Span) : bool := Z.max (lo r) (lo t) <=? Z.min (hi r) (hi t).

(** The height of the intersection rectangle. *)
Definition overlap (r t : Span) : Z := Z.max 0 (Z.min (hi r) (hi t) - Z.max (lo r) (lo t)).

(** [intersectionRatio >= threshold]; a target of zero height has ratio
    1 when it intersects and 0 otherwise. *)
Definition ratio_reaches (o : Options) (r t : Span) : bool :=
  let area := hi t - lo t in
  if area =? 0 then (if intersects r t then threshold_pct o <=? 100 else threshold_pct o <=? 0)
  else threshold_pct o * area <=? 100 * overlap r t.

(** The index of the first threshold above the ratio, for the single
    threshold of [observerOptions]. *)
Definition threshold_index (o : Options) (r t : Span) : nat :=
  if ratio_reaches o r t then 1%nat else 0%nat.

(** ** Observation state: [previousThresholdIndex] and
    [previousIsIntersecting] of each (observer, target) pair. *)
Record Obs := { prev_index : option nat; prev_isect : bool }.

Definition obs_init : Obs := {| prev_index := None; prev_isect := false |}.

Notation ObsKey := (nat * Element)%type (only parsing).
Notation ObsState := (list (ObsKey * Obs)) (only parsing).

Fixpoint obs_get (k : ObsKey) (st : ObsState) : Obs :=
  match st with
  | [] => obs_init
  | (k', v) :: st' => if bool_decide (k' = k) then v else obs_get k st'
  end.

Definition obs_set (k : ObsKey) (v : Obs) (st : ObsState) : ObsState := (k, v) :: st.

(** One target of observer [i]: compare with the previous observation,
    queue an entry on a change. *)
Definition update_target (lay : Layout) (vp : Viewport) (i : nat) (o : IObserver)
    (acc : ObsState * list Entry) (t : Element) : ObsState * list Entry :=
  let '(st, es) := acc in
  let r := root_span (io_options o) vp in
  let tr := target_span (lay t) vp in
  let ti := threshold_index (io_options o) r tr in
  let isect := intersects r tr in
  let prev := obs_get (i, t) st in
  if bool_decide (prev_index prev = Some ti) && Bool.eqb (prev_isect prev) isect then (st, es)
  else (obs_set (i, t) {| prev_index := Some ti; prev_isect := isect |} st,
        es ++ [{| entry_target := t; isIntersecting := isect |}]).

(** All targets of observer [i], in the order they were observed. *)
Definition frame_observer (lay : Layout) (vp : Viewport) (st : ObsState) (i : nat) (o : IObserver)
    : ObsState * list Entry :=
  fold_left (update_target lay vp i o) (io_targets o) (st, []).

(** One rendering frame: every observer, in creation order from index
    [i]; the observers with queued entries, with their entries, in that
    order (the order their callbacks are invoked). *)
Fixpoint frame_from (lay : Layout) (vp : Viewport) (i : nat) (s : Store) (st : ObsState)
    : ObsState * list (nat * list Entry) :=
  match s with
  | [] => (st, [])
  | o :: s' =>
      let '(st1, es) := frame_observer lay vp st i o in
      let '(st2, ds) := frame_from lay vp (S i) s' st1 in
      (st2, if bool_decide (es = []) then ds else (i, es) :: ds)
  end.

Definition frame (lay : Layout) (vp : Viewport) (s : Store) (st : ObsState)
    : ObsState * list (nat * list Entry) :=
  frame_from lay vp 0 s st.

(** ** Lemmas *)

(** The entries of a fold over targets are the entries it started with
    and entries about those targets. *)
Lemma update_targets_entries lay vp i o ts st es st' es' :
  fold_left (update_target lay vp i o) ts (st, es) = (st', es') ->
  forall e, e ∈ es' -> e ∈ es \/ entry_target e ∈ ts.
Proof.
  revert st es. induction ts as [|t ts IH]; simpl; intros st es H e He.
  - simplify_eq. by left.
  - destruct (_ && _) eqn:E; destruct (IH _ _ H e He) as [H'|H']; try set_solver.
Qed.

Lemma frame_observer_targets lay vp st i o st' es :
  frame_observer lay vp st i o = (st', es) -> forall e, e ∈ es -> entry_target e ∈ io_targets o.
Proof.
  intros H e He. destruct (update_targets_entries _ _ _ _ _ _ _ _ _ H e He) as [Hn|]; [|done].
  by apply not_elem_of_nil in Hn.
Qed.

(** Every delivery of a frame is a non-empty batch about targets of the
    observer it goes to. *)
Lemma frame_from_deliveries lay vp s : forall i st st' ds,
  frame_from lay vp i s st = (st', ds) -> forall j es, (j, es) ∈ ds ->
  (i <= j)%nat /\ es ≠ [] /\
  exists o, s !! (j - i)%nat = Some o /\ forall e, e ∈ es -> entry_target e ∈ io_targets o.
Proof.
  induction s as [|o s IH]; simpl; intros i st st' ds H j es Hj.
  - simplify_eq. by apply not_elem_of_nil in Hj.
  - destruct (frame_observer lay vp st i o) as [st1 es1] eqn:E1.
    destruct (frame_from lay vp (S i) s st1) as [st2 ds2] eqn:E2. simplify_eq.
    assert (Hrest : (j, es) ∈ ds2 -> (i <= j)%nat /\ es ≠ [] /\
              exists o', (o :: s) !! (j - i)%nat = Some o' /\
                         forall e, e ∈ es -> entry_target e ∈ io_targets o').
    { intros Hin. destruct (IH _ _ _ _ E2 j es Hin) as (Hle & Hne & o' & Ho' & Ht).
      split; [lia|]. split; [done|]. exists o'. split; [|done].
      replace (j - i)%nat with (S (j - S i)) by lia. done. }
    case_bool_decide; [by apply Hrest|].
    apply elem_of_cons in Hj as [Hj|Hj]; [|by apply Hrest]. simplify_eq.
    split; [lia|]. split; [done|]. exists o. rewrite Nat.sub_diag. split; [done|].
    by eapply frame_observer_targets.
Qed.

Lemma frame_deliverable lay vp s st st' ds j es :
  frame lay vp s st = (st', ds) -> (j, es) ∈ ds -> deliverable s j es = true.
Proof.
  intros H Hj. destruct (frame_from_deliveries lay vp s 0 st st' ds H j es Hj) as (_ & Hne & o & Ho & Ht).
  rewrite Nat.sub_0_r in Ho. unfold deliverable. rewrite Ho.
  apply andb_true_iff. split; [by apply bool_decide_eq_true|].
  apply forallb_forall. intros e He. apply bool_decide_eq_true, Ht. by apply list_elem_of_In.
Qed.

End Geometry.
