(* ===== verification/Scrolling.v ===== *)
(** * Scrolling: frames, observer callbacks and the active section

    Composes the platform's geometry ([Geometry.frame]) with the page's
    lifecycle ([Lifecycle.step]): at each rendering frame the browser
    computes the entries of every observer, then invokes the callbacks of
    the observers with queued entries in creation order, each delivery
    being an [EvIntersect] step of the page.

    With the code as written no observer exists (C1), so frames deliver
    nothing; [scroll_frame_runs] is about any store of observers, such as
    the six the effect creates when the refs hold their nodes (C3). *)

From stdpp Require Import base list sets strings.
From Stdlib Require Import ZArith Lia.
From S2P Require Import Prelude Registry Vdom Observer State View Tracker Lifecycle Geometry.
Import Registry Vdom Observer State Tracker Lifecycle Geometry.

Module Scrolling.

Section WithYear.
Variable year : N.

(** The deliveries of a frame as page events. *)
Definition frame_events (ds : list (nat * list Entry)) : list event :=
  (fun d => EvIntersect d.1 d.2) <$> ds.

(** One frame at viewport [vp]: entries, then callbacks in order. *)
Definition scroll_frame (lay : Layout) (vp : Viewport) (ps : Page * ObsState) : option (Page * ObsState) :=
  let '(p, st) := ps in
  let '(st', ds) := frame lay vp (store p) st in
  (fun p' => (p', st')) <$> run year p (frame_events ds).

End WithYear.

(** The active section after a batch of deliveries, in delivery order:
    each observer with an intersecting entry writes its section. *)
Definition frame_active (s : Store) (ds : list (nat * list Entry)) (a : string) : string :=
  fold_left (fun a d => if existsb isIntersecting d.2 then default a (io_section <$> s !! d.1) else a) ds a.

Section Facts.
Variable year : N.

Lemma intersect_step_fields p id es :
  store (flush year (observer_callback id es p)) = store p /\
  phase (flush year (observer_callback id es p)) = phase p /\
  activeSection (flush year (observer_callback id es p)) =
    if existsb isIntersecting es && live p then id else activeSection p.
Proof.
  unfold flush. rewrite observer_callback_eq. unfold setActiveSection.
  by destruct (existsb _ _), (live p).
Qed.

(** Deliverable batches run to the end, keep the store and the phase, and
    leave the active section of [frame_active]. *)
Lemma run_frame_events p ds :
  (forall d, d ∈ ds -> deliverable (store p) d.1 d.2 = true) ->
  exists p', run year p (frame_events ds) = Some p' /\ store p' = store p /\ phase p' = phase p /\
    activeSection p' = if live p then frame_active (store p) ds (activeSection p) else activeSection p.
Proof.
  revert p. induction ds as [|[i es] ds IH]; intros p Hd.
  - exists p. by destruct (live p).
  - assert (Hi : deliverable (store p) i es = true) by (apply (Hd (i, es)); set_solver).
    destruct (deliverable_observing _ _ _ Hi) as (o & Ho & _).
    destruct (intersect_step_fields p (io_section o) es) as (Hs & Hph & Ha).
    set (p1 := flush year (observer_callback (io_section o) es p)) in *.
    destruct (IH p1) as (p' & Hrun & Hs' & Hph' & Ha').
    { intros d Hin. rewrite Hs. apply Hd. set_solver. }
    exists p'. change (frame_events ((i, es) :: ds)) with (EvIntersect i es :: frame_events ds). rewrite run_cons. simpl. rewrite Hi, Ho. simpl. split; [done|]. split; [congruence|]. split; [congruence|].
    rewrite Ha', Hs. unfold live in *. rewrite Hph, Ha.
    destruct (bool_decide (phase p ≠ Unmounted)); by destruct (existsb _ _).
Qed.

(** C17: a frame always runs to the end: every delivery the platform
    makes is a step of the page, the store of observers is unchanged,
    and the active section is the one [frame_active] gives, i.e. each
    observer with an intersecting entry, in creation order, overwrites
    it (nothing changes once the page is unmounted). *)
Theorem scroll_frame_runs lay vp p st :
  exists p' st', scroll_frame year lay vp (p, st) = Some (p', st') /\ store p' = store p /\
    activeSection p' =
      if live p then frame_active (store p) (frame lay vp (store p) st).2 (activeSection p)
      else activeSection p.
Proof.
  unfold scroll_frame. destruct (frame lay vp (store p) st) as [st' ds] eqn:E.
  destruct (run_frame_events p ds) as (p' & Hrun & Hs & _ & Ha).
  { intros [j es] Hin. by eapply frame_deliverable. }
  exists p', st'. by rewrite Hrun.
Qed.

End Facts.

End Scrolling.
