(* ===== verification/Refinement.v ===== *)
(** * The tracker refines the state machine of spec section 4.2

    The specification describes the mechanism as a small machine over
    (ActiveSection, MenuOpenState, lifecycle): mounting starts it, an
    observer reporting that a registered section entered the band sets
    ActiveSection to that id, a navigation selection closes the menu
    without touching ActiveSection, the menu button toggles the menu, and
    after teardown nothing changes.  [astep] is that machine, written
    from the spec's words; [abs] maps a page to its abstract state and
    [abs_event] maps each page event to the abstract event it performs.

    The refinement theorem says every run of [Lifecycle.step] from a
    state whose ids are registered is a run of [astep] along the mapped
    events.  The converse fails: the machine allows [AEnter] steps that
    the page never takes (C1, C2). *)

From stdpp Require Import base list sets strings.
From S2P Require Import Prelude Registry Vdom Observer State View Tracker Lifecycle.
Import Registry Vdom Observer State Tracker Lifecycle.

Module Refinement.

(** ** The abstract machine *)
Record AState := { a_active : string; a_menu : bool; a_phase : Phase }.

Inductive aevent :=
| AMount
| AEnter (id : string)
| ASelect (id : string)
| AToggleMenu
| AUnmount
| ATau.

Definition with_active (id : string) (a : AState) : AState :=
  {| a_active := id; a_menu := a_menu a; a_phase := a_phase a |}.
Definition with_menu (b : bool) (a : AState) : AState :=
  {| a_active := a_active a; a_menu := b; a_phase := a_phase a |}.
Definition with_aphase (ph : Phase) (a : AState) : AState :=
  {| a_active := a_active a; a_menu := a_menu a; a_phase := ph |}.

Inductive astep : AState -> aevent -> AState -> Prop :=
| as_mount a : a_phase a = NotMounted -> astep a AMount (with_aphase Mounted a)
| as_enter a id : id ∈ section_keys -> a_phase a ≠ Unmounted -> astep a (AEnter id) (with_active id a)
| as_enter_late a id : a_phase a = Unmounted -> astep a (AEnter id) a
| as_select a id : a_phase a = Mounted -> astep a (ASelect id) (with_menu false a)
| as_toggle a : a_phase a = Mounted -> astep a AToggleMenu (with_menu (negb (a_menu a)) a)
| as_unmount a : a_phase a = Mounted -> astep a AUnmount (with_aphase Unmounted a)
| as_tau a : astep a ATau a.

(** Runs of the machine along a list of events. *)
Inductive arun : AState -> list aevent -> AState -> Prop :=
| arun_nil a : arun a [] a
| arun_cons a e a' evs a'' : astep a e a' -> arun a' evs a'' -> arun a (e :: evs) a''.

(** ** The abstraction *)
Definition abs (p : Page) : AState :=
  {| a_active := activeSection p; a_menu := mobileMenuOpen p; a_phase := phase p |}.

Definition abs_event (p : Page) (ev : event) : aevent :=
  match ev with
  | EvMount => AMount
  | EvClick (OnNavClick k) => ASelect k
  | EvClick OnMenuClick => AToggleMenu
  | EvClick _ => ATau
  | EvIntersect i es =>
      match store p !! i with
      | Some o => if existsb isIntersecting es then AEnter (io_section o) else ATau
      | None => ATau
      end
  | EvUnmount => AUnmount
  end.

(** The abstract events of a run of the page. *)
Fixpoint abs_events (year : N) (p : Page) (evs : list event) : list aevent :=
  match evs with
  | [] => []
  | ev :: evs' =>
      abs_event p ev :: match exec year p ev with Some p' => abs_events year p' evs' | None => [] end
  end.

(** The states the refinement starts from: the ids the tracker holds are
    registered, and the refs object has the six keys. *)
Definition tracked (p : Page) : Prop :=
  registered p /\ Object_keys (refs p) = section_keys.

(** ** Lemmas *)
Section Facts.
Variable year : N.

Lemma abs_flush p : abs (flush year p) = abs p.
Proof. done. Qed.

Lemma abs_mount p : abs (mount year p) = with_aphase Mounted (abs p).
Proof. unfold mount. rewrite abs_flush, mount_effect_eq. reflexivity. Qed.

Lemma abs_unmount p : abs (unmount p) = with_aphase Unmounted (abs p).
Proof. unfold unmount, run_cleanup. by destruct (cleanup p). Qed.

Lemma abs_setMobileMenuOpen b p : phase p = Mounted -> abs (setMobileMenuOpen b p) = with_menu b (abs p).
Proof. intros Hph. unfold setMobileMenuOpen, live. rewrite bool_decide_eq_true_2 by congruence. reflexivity. Qed.

Lemma abs_callback id es p :
  abs (observer_callback id es p) =
  if existsb isIntersecting es && live p then with_active id (abs p) else abs p.
Proof.
  rewrite observer_callback_eq. unfold setActiveSection. by destruct (existsb _ _), (live p).
Qed.

Lemma abs_dispatch h p :
  phase p = Mounted ->
  abs (dispatch h p).1 =
  match h with
  | OnNavClick _ => with_menu false (abs p)
  | OnMenuClick => with_menu (negb (mobileMenuOpen p)) (abs p)
  | _ => abs p
  end.
Proof.
  intros Hph. destruct h as [k| | |v]; simpl; [|done|by apply abs_setMobileMenuOpen|done].
  rewrite scrollToSection_js. destruct (js_current _) as [[el|]|e]; simpl;
    by rewrite <- abs_setMobileMenuOpen.
Qed.

(** Steps keep the keys of the refs object. *)
Lemma step_keys p ev p' : step year p ev p' -> Object_keys (refs p') = Object_keys (refs p).
Proof.
  destruct 1 as [p Hp|p h Hp Hc|p i es o Hd Ho|p Hp]; rewrite ?flush_keys.
  - unfold mount. rewrite flush_keys, mount_effect_eq. simpl. unfold setMounted.
    apply commit_keys.
  - destruct (dispatch_same_core h p) as (_ & _ & _ & _ & _ & Hr). by rewrite Hr.
  - rewrite observer_callback_eq. unfold setActiveSection. by destruct (existsb _ _), (live p).
  - unfold unmount. simpl. by rewrite commit_keys.
Qed.

Lemma step_tracked p ev p' : tracked p -> step year p ev p' -> tracked p'.
Proof.
  intros [Hr Hk] Hs. split; [by eapply step_registered|]. by rewrite (step_keys _ _ _ Hs).
Qed.

(** One step of the page is one step of the machine. *)
Lemma step_simulates p ev p' :
  tracked p -> step year p ev p' -> astep (abs p) (abs_event p ev) (abs p').
Proof.
  intros [[_ Hs] Hk] Hstep. destruct Hstep as [p Hp|p h Hp Hc|p i es o Hd Ho|p Hp].
  - rewrite abs_mount. by constructor.
  - simpl. rewrite abs_flush, abs_dispatch by done.
    destruct h; constructor; done.
  - simpl. rewrite Ho, abs_flush, abs_callback.
    destruct (existsb _ _); [|constructor]. unfold live. simpl. case_bool_decide as Hl.
    + constructor; [|done]. rewrite <- Hk. rewrite Forall_lookup in Hs. by eapply Hs.
    + apply as_enter_late. simpl. destruct (phase p); congruence.
  - rewrite abs_unmount. by constructor.
Qed.

Lemma exec_tracked p ev p' : tracked p -> exec year p ev = Some p' -> tracked p'.
Proof. intros Ht E. apply exec_step in E. by eapply step_tracked. Qed.

End Facts.

Section Claims.
Variable year : N.

(** C18: the page refines the machine of spec section 4.2: from any
    state whose ids are registered, every run of events of the page is a
    run of the abstract machine along the corresponding abstract events
    (a mount starts it, a nav click only closes the menu, a delivery with
    an intersecting entry sets the active id, unmounting stops it). *)
Theorem run_refines p evs p' :
  tracked p -> run year p evs = Some p' -> arun (abs p) (abs_events year p evs) (abs p').
Proof.
  revert p. induction evs as [|ev evs IH]; intros p Ht H; simpl in H.
  - simplify_eq. constructor.
  - simpl. destruct (exec year p ev) as [q|] eqn:E; [|done]. simpl in H.
    econstructor; [apply (step_simulates year); [done|]; by apply exec_step|].
    apply IH; [by eapply (exec_tracked year)|done].
Qed.

End Claims.

Lemma run_refines_witness :
  tracked (initial_page None) /\ run 2026 (initial_page None) scenario = Some scenario_page /\
  arun (abs (initial_page None)) (abs_events 2026 (initial_page None) scenario) (abs scenario_page).
Proof.
  assert (H1 : tracked (initial_page None)) by (split; [split; [decide_prop|constructor]|reflexivity]).
  assert (H2 : run 2026 (initial_page None) scenario = Some scenario_page) by (vm_compute; reflexivity).
  split; [exact H1|]. split; [exact H2|]. exact (run_refines 2026 _ _ _ H1 H2).
Defined.

End Refinement.
