(* ===== verification/Anchors.v ===== *)
(** * The section registry behind the interface of spec section 4.1

    The spec describes the registry by two operations: [allSectionIds()],
    the ordered ids, and [registerAnchor(id, anchor)], called once per
    section at render time.  [AnchorRegistry] states that interface as a
    class; [sectionRefs_registry] implements it on the [sectionRefs]
    object ([Object.keys], [ref.current]).  The code never calls a
    [registerAnchor]: React writes every [ref.current] in one pass when it
    commits a tree ([Tracker.commit]).  The theorem of this file is that
    [scrollToSection], the registry's client, reads it only through
    [anchor]. *)

From stdpp Require Import base list sets strings.
From S2P Require Import Prelude Registry Vdom State Tracker.
Import Registry Vdom State Tracker.

Module Anchors.

Class AnchorRegistry (R : Type) := {
  allSectionIds : R -> list string;
  anchor : R -> string -> option Element;
  registerAnchor : string -> Element -> R -> R;
  detachAll : R -> R
}.

#[export] Instance sectionRefs_registry : AnchorRegistry SectionRefs := {
  allSectionIds := Object_keys;
  anchor r k := assoc k r ≫= current;
  registerAnchor id el r :=
    (fun kv : string * Ref => if kv.1 === id then (kv.1, {| current := Some el |}) else kv) <$> r;
  detachAll r := (fun kv : string * Ref => (kv.1, {| current := None |})) <$> r
}.

(** ** Properties *)

(** C24: [scrollToSection] is a client of the registry interface: for an
    id the registry lists, it closes the menu and requests a smooth scroll
    to exactly the anchor the registry holds for that id, without
    throwing; when the anchor is detached (before the first commit of the
    sections, or after unmount) it only closes the menu. *)
Theorem scrollToSection_reads_anchor p k :
  k ∈ allSectionIds (refs p) ->
  scrollToSection k p =
  (match anchor (refs p) k with
   | Some el => push_scroll el (setMobileMenuOpen false p)
   | None => setMobileMenuOpen false p
   end, None).
Proof.
  cbn [allSectionIds anchor sectionRefs_registry]. intros Hk.
  destruct (assoc_in_Some _ _ Hk) as [[node] Hr].
  rewrite (scrollToSection_own p k node Hr), Hr. by destruct node.
Qed.

Lemma scrollToSection_reads_anchor_witness :
  "about" ∈ allSectionIds (refs (initial_page None)) /\
  scrollToSection "about" (initial_page None) = (setMobileMenuOpen false (initial_page None), None).
Proof.
  assert (Hk : "about" ∈ allSectionIds (refs (initial_page None))) by decide_prop.
  split; [exact Hk|]. exact (scrollToSection_reads_anchor (initial_page None) "about" Hk).
Defined.

End Anchors.
