(* ===== verification/Animations.v ===== *)
(** * The framer-motion animations of the page (page.tsx lines 27-54 and
      every [motion.*] element of lines 104-787)

    [mnode] is the tree of the page's motion components with the props the
    code passes them ([initial], [animate], [whileInView], [exit],
    [whileHover], [whileTap], [variants], [viewport], [transition]), as an
    association list in source order.  Plain elements between two motion
    components are left out: framer-motion's context passes through them.
    [motion_page p] is that tree for the state [p], built the way [render]
    builds the elements ([View.render]).

    Numbers are kept in hundredths ([Num 100] is [1], [Num 20] is [0.2]
    seconds or pixels): every literal of the code has at most two decimals.

    framer-motion's rules are modelled after the tree, as the platform
    the code runs on: a component whose [initial], [animate] or
    [whileInView] is a label controls its variant children; a component
    with [variants] and no label takes its labels from the controlling
    ancestor and is staggered by the ancestor's [staggerChildren]; the
    [transition] of the resolved variant replaces the component's own
    [transition] prop; [viewport.once] keeps an element animated after it
    leaves the viewport; an [exit] animation plays only for a child of
    [AnimatePresence].  Two choices of the model: the stagger index of a
    variant child counts the variant children among its controller's
    direct motion children (the code never puts a plain motion component
    between the two); [exits_played] compares the entries of two renders
    and takes the [AnimatePresence] components to persist between them,
    as they do when written outside a condition. *)

From stdpp Require Import base list sets strings pretty.
From Stdlib Require Import ZArith.
From S2P Require Import Prelude Registry Vdom State Content View.
Import Registry Vdom State Content View.

Module Animations.

(** ** Motion values, targets and variants *)

Inductive MValue := Num (z : Z) | Str (s : string).

#[export] Instance MValue_eq_dec : EqDecision MValue.
Proof. solve_decision. Defined.

(** A target object ([{ opacity: 0, y: 20 }]) and a transition object
    ([{ duration: 0.6, delay: 0.2 * index, ease: "easeOut" }]). *)
Definition Target := list (string * MValue).
Definition Transition := list (string * MValue).

(** A variant: its target and its own [transition] key, if any. *)
Record Variant := { v_target : Target; v_transition : option Transition }.

Inductive PropVal :=
| PTarget (t : Target)                      (** an inline target *)
| PLabel (l : string)                       (** a variant label, ["hidden"] *)
| PVariants (vs : list (string * Variant))  (** [variants={...}] *)
| PViewport (once : bool) (amount : option Z)
| PTransition (t : Transition).

Inductive mnode :=
| MNode (tag : string) (key : option string) (props : list (string * PropVal)) (cs : list mnode)
| AnimatePresence (cs : list mnode).

(** Lines 28-35. *)
Definition fadeIn : list (string * Variant) :=
  [("hidden", {| v_target := [("opacity", Num 0); ("y", Num 2000)]; v_transition := None |});
   ("visible", {| v_target := [("opacity", Num 100); ("y", Num 0)];
                  v_transition := Some [("duration", Num 60); ("ease", Str "easeOut")] |})].

(** Lines 37-45. *)
Definition staggerContainer : list (string * Variant) :=
  [("hidden", {| v_target := [("opacity", Num 0)]; v_transition := None |});
   ("visible", {| v_target := [("opacity", Num 100)];
                  v_transition := Some [("staggerChildren", Num 20)] |})].

(** Lines 47-54. *)
Definition itemFade : list (string * Variant) :=
  [("hidden", {| v_target := [("opacity", Num 0); ("y", Num 2000)]; v_transition := None |});
   ("visible", {| v_target := [("opacity", Num 100); ("y", Num 0)];
                  v_transition := Some [("duration", Num 50)] |})].

(** [0.1 * index] and the like, in hundredths. *)
Definition hundredths (k : nat) : MValue := Num (Z.of_nat k).

(** ** The header (lines 104-187) *)

Definition title_motion : mnode :=
  MNode "motion.h1" None
    [("initial", PTarget [("opacity", Num 0); ("x", Num (-2000))]);
     ("animate", PTarget [("opacity", Num 100); ("x", Num 0)]);
     ("transition", PTransition [("duration", Num 50)])] [].

(** Lines 114-134: the index is the position in [Object.keys(sectionRefs)]. *)
Definition nav_motion_item (section : string) (index : nat) : option mnode :=
  if section !== "hero" then
    Some (MNode "motion.a" (Some section)
            [("initial", PTarget [("opacity", Num 0); ("y", Num (-1000))]);
             ("animate", PTarget [("opacity", Num 100); ("y", Num 0)]);
             ("transition", PTransition [("duration", Num 30); ("delay", hundredths (10 * index))])] [])
  else None.

Definition theme_button_motion : mnode :=
  MNode "motion.button" None
    [("whileHover", PTarget [("scale", Num 110)]);
     ("whileTap", PTarget [("scale", Num 95)]);
     ("initial", PTarget [("opacity", Num 0)]);
     ("animate", PTarget [("opacity", Num 100)]);
     ("transition", PTransition [("delay", Num 50)])] [].

Definition menu_button_motion : mnode :=
  MNode "motion.div" None
    [("initial", PTarget [("opacity", Num 0)]); ("animate", PTarget [("opacity", Num 100)])] [].

(** Lines 159-188: rendered by [{mobileMenuOpen && ...}], with no
    [AnimatePresence] around it. *)
Definition mobile_menu_motion (mobileMenuOpen : bool) : option mnode :=
  if mobileMenuOpen then
    Some (MNode "motion.div" None
            [("initial", PTarget [("opacity", Num 0); ("height", Num 0)]);
             ("animate", PTarget [("opacity", Num 100); ("height", Str "auto")]);
             ("exit", PTarget [("opacity", Num 0); ("height", Num 0)]);
             ("transition", PTransition [("duration", Num 30)])] [])
  else None.

Definition header_motion (p : Page) : list mnode :=
  [title_motion] ++ omap id (map_index nav_motion_item (Object_keys (refs p))) ++
  [theme_button_motion; menu_button_motion] ++ option_list (mobile_menu_motion (mobileMenuOpen p)).

(** ** The sections (lines 194-771) *)

(** [variants={fadeIn} initial="hidden" whileInView="visible"
    viewport={{ once: true, amount: 0.2 }}]: the section headings and the
    About paragraphs; [extra] are the props written after these. *)
Definition fade_motion (tag : string) (extra : list (string * PropVal)) : mnode :=
  MNode tag None
    ([("variants", PVariants fadeIn); ("initial", PLabel "hidden");
      ("whileInView", PLabel "visible"); ("viewport", PViewport true (Some 20%Z))] ++ extra) [].

(** An inline entrance: [initial={from} whileInView={to} viewport={{ once: true, ... }}]. *)
Definition inview_motion (tag : string) (key : option string) (from to : Target) (amount : option Z)
    (tr : Transition) (cs : list mnode) : mnode :=
  MNode tag key
    [("initial", PTarget from); ("whileInView", PTarget to);
     ("viewport", PViewport true amount); ("transition", PTransition tr)] cs.

(** Lines 230-234. *)
Definition badge_motion (skill : string) : mnode :=
  MNode "motion.div" (Some skill) [("variants", PVariants itemFade)] [].

(** Lines 194-256. *)
Definition hero_motion : list mnode :=
  [MNode "motion.div" None
     [("initial", PTarget [("opacity", Num 0); ("y", Num 2000)]);
      ("animate", PTarget [("opacity", Num 100); ("y", Num 0)]);
      ("transition", PTransition [("duration", Num 80)])] [];
   MNode "motion.div" None
     [("initial", PTarget [("opacity", Num 0); ("y", Num 3000)]);
      ("animate", PTarget [("opacity", Num 100); ("y", Num 0)]);
      ("transition", PTransition [("duration", Num 80); ("delay", Num 20)])]
     [MNode "motion.div" None
        [("variants", PVariants staggerContainer); ("initial", PLabel "hidden"); ("animate", PLabel "visible")]
        (map badge_motion hero_badges);
      MNode "motion.div" None
        [("initial", PTarget [("opacity", Num 0)]); ("animate", PTarget [("opacity", Num 100)]);
         ("transition", PTransition [("delay", Num 80)])] []]].

(** Lines 263-299 (the block of lines 300-372 is commented out). *)
Definition about_motion : list mnode :=
  [fade_motion "motion.div" []; fade_motion "motion.p" [];
   fade_motion "motion.p" [("transition", PTransition [("delay", Num 20)])]].

(** Line 464: [variants={itemFade} transition={{ delay: 0.1 * dutyIndex }}]. *)
Definition duty_motion (duty : string) (dutyIndex : nat) : mnode :=
  MNode "motion.li" (Some (pretty dutyIndex))
    [("variants", PVariants itemFade); ("transition", PTransition [("delay", hundredths (10 * dutyIndex))])] [].

(** Lines 425-470: the job card, its timeline dot and its duty list. *)
Definition job_motion (job : Job) (index : nat) : mnode :=
  inview_motion "motion.div" (Some (pretty index)) [("opacity", Num 0); ("y", Num 5000)]
    [("opacity", Num 100); ("y", Num 0)] (Some 10%Z) [("duration", Num 60); ("delay", hundredths (20 * index))]
    [inview_motion "motion.div" None [("scale", Num 0)] [("scale", Num 100)] None
       [("duration", Num 40); ("delay", hundredths (30 + 20 * index))]
       [inview_motion "motion.div" None [("scale", Num 0)] [("scale", Num 100)] None
          [("duration", Num 30); ("delay", hundredths (50 + 20 * index))] []];
     MNode "motion.ul" None
       [("variants", PVariants staggerContainer); ("initial", PLabel "hidden");
        ("whileInView", PLabel "visible"); ("viewport", PViewport true (Some 10%Z))]
       (map_index duty_motion (duties job))].

(** Lines 381-470. *)
Definition experience_motion : list mnode :=
  fade_motion "motion.div" [] :: map_index job_motion jobs.

(** Lines 536 and 553. *)
Definition module_motion (module : string) (index : nat) : mnode :=
  MNode "motion.li" (Some (pretty index))
    [("variants", PVariants itemFade); ("transition", PTransition [("delay", hundredths (10 * index))])] [].

(** Lines 523-557: a module list. *)
Definition modules_motion (modules : list string) : mnode :=
  MNode "motion.ul" None
    [("variants", PVariants staggerContainer); ("initial", PLabel "hidden");
     ("whileInView", PLabel "visible"); ("viewport", PViewport true None)]
    (map_index module_motion modules).

(** Lines 479-562. *)
Definition education_motion : list mnode :=
  [fade_motion "motion.div" [];
   inview_motion "motion.div" None [("opacity", Num 0); ("y", Num 3000)] [("opacity", Num 100); ("y", Num 0)]
     (Some 20%Z) [("duration", Num 60)]
     [inview_motion "motion.div" None [("y", Num 2000); ("opacity", Num 0)] [("y", Num 0); ("opacity", Num 100)]
        None [("delay", Num 20)] [];
      inview_motion "motion.div" None [("y", Num 2000); ("opacity", Num 0)] [("y", Num 0); ("opacity", Num 100)]
        None [("delay", Num 30)] [modules_motion modules_left; modules_motion modules_right]]].

(** Lines 605-628 and 641-664: a bar card and its animated bar, whose
    [whileInView] width is the template [`${skill.value}%`]. *)
Definition bar_motion (b : Bar) (index : nat) : mnode :=
  inview_motion "motion.div" (Some (pretty index)) [("opacity", Num 0); ("y", Num 2000)]
    [("opacity", Num 100); ("y", Num 0)] None [("duration", Num 50); ("delay", hundredths (10 * index))]
    [inview_motion "motion.div" None [("width", Num 0)] [("width", Str (width_of b))] None
       [("duration", Num 100); ("delay", hundredths (30 + 10 * index)); ("ease", Str "easeOut")] []].

(** Lines 570-665: Radix renders the children of the selected
    [TabsContent] only ([View.tabs_content]). *)
Definition skills_motion (selected : string) : list mnode :=
  [fade_motion "motion.h2" [];
   inview_motion "motion.div" None [("opacity", Num 0); ("y", Num 2000)] [("opacity", Num 100); ("y", Num 0)]
     None [("duration", Num 50)] []] ++
  (if selected === "professional-skills" then map_index bar_motion professional_skills else []) ++
  (if selected === "languages" then map_index bar_motion languages else []).

(** Lines 721-747. *)
Definition contact_motion (c : ContactItem) (index : nat) : mnode :=
  MNode "motion.div" (Some (pretty index))
    [("initial", PTarget [("opacity", Num 0); ("x", Num (-2000))]);
     ("whileInView", PTarget [("opacity", Num 100); ("x", Num 0)]);
     ("viewport", PViewport true None);
     ("transition", PTransition [("duration", Num 40); ("delay", hundredths (10 * index))])] [].

(** Lines 675-771. *)
Definition contacts_motion : list mnode :=
  [fade_motion "motion.h2" [];
   inview_motion "motion.div" None [("opacity", Num 0); ("y", Num 3000)] [("opacity", Num 100); ("y", Num 0)]
     None [("duration", Num 60)]
     (map_index contact_motion contacts ++
      [inview_motion "motion.div" None [("opacity", Num 0); ("y", Num 2000)] [("opacity", Num 100); ("y", Num 0)]
         None [("duration", Num 50); ("delay", Num 50)] []])].

(** Lines 779-787. *)
Definition footer_motion : mnode :=
  inview_motion "motion.p" None [("opacity", Num 0)] [("opacity", Num 100)] None [("duration", Num 50)] [].

(** The sections and the footer (lines 191-789), for the selected tab. *)
Definition sections_motion (selected : string) : list mnode :=
  hero_motion ++ about_motion ++ experience_motion ++ education_motion ++
  skills_motion selected ++ contacts_motion ++ [footer_motion].

(** The motion components of the page, in document order: none before
    the mount gate opens (lines 95-97). *)
Definition motion_page (p : Page) : option (list mnode) :=
  if negb (mounted p) then None else Some (header_motion p ++ sections_motion (tab p)).

(** ** framer-motion's resolution of the props

    The platform's rules, as framer-motion implements them
    ([isControllingVariants], [isVariantNode], [animateVariant],
    [animateChildren], [animateTarget]). *)

(** The props that may hold a variant label ([variantProps]). *)
Definition variantProps : list string :=
  ["initial"; "animate"; "whileInView"; "whileFocus"; "whileHover"; "whileTap"; "whileDrag"; "exit"].

Definition label_of (o : option PropVal) : option string :=
  match o with Some (PLabel l) => Some l | _ => None end.

Definition isControllingVariants (ps : list (string * PropVal)) : bool :=
  existsb (fun n => bool_decide (is_Some (label_of (assoc n ps)))) variantProps.

Definition variants_of (ps : list (string * PropVal)) : list (string * Variant) :=
  match assoc "variants" ps with Some (PVariants vs) => vs | _ => [] end.

Definition isVariantNode (ps : list (string * PropVal)) : bool :=
  isControllingVariants ps || bool_decide (assoc "variants" ps ≠ None).

(** A variant child: a variant node that takes its labels from the
    closest controlling ancestor. *)
Definition inherits (ps : list (string * PropVal)) : bool :=
  isVariantNode ps && negb (isControllingVariants ps).

Definition transition_prop (ps : list (string * PropVal)) : option Transition :=
  match assoc "transition" ps with Some (PTransition t) => Some t | _ => None end.

Definition num (k : string) (t : Transition) : option Z :=
  match assoc k t with Some (Num z) => Some z | _ => None end.

(** A target or a label, resolved against the component's variants. *)
Definition resolve (vs : list (string * Variant)) (d : option PropVal) : option Variant :=
  match d with
  | Some (PTarget t) => Some {| v_target := t; v_transition := None |}
  | Some (PLabel l) => assoc l vs
  | _ => None
  end.

(** What starts an element's entrance animation. *)
Inductive Trigger := Never | OnMount | OnInView (once : bool).

#[export] Instance Trigger_eq_dec : EqDecision Trigger.
Proof. solve_decision. Defined.

(** What a variant child receives from its controlling ancestor: the
    labels, the trigger, the delay it forwards ([delayChildren] plus its
    own offset) and [staggerChildren]. *)
Record Ctx := { c_initial : option string; c_animate : option string; c_trigger : Trigger;
                c_delay : Z; c_stagger : Z }.

Definition ctx0 : Ctx :=
  {| c_initial := None; c_animate := None; c_trigger := Never; c_delay := 0; c_stagger := 0 |}.

(** The animation an element runs and its trigger: [whileInView] takes
    priority over [animate]; a variant child follows its controller. *)
Definition end_def (ctx : Ctx) (ps : list (string * PropVal)) : option PropVal * Trigger :=
  match assoc "whileInView" ps, assoc "animate" ps with
  | Some d, _ =>
      (Some d, OnInView match assoc "viewport" ps with Some (PViewport once _) => once | _ => false end)
  | None, Some d => (Some d, OnMount)
  | None, None => if inherits ps then (PLabel <$> c_animate ctx, c_trigger ctx) else (None, Never)
  end.

Definition start_def (ctx : Ctx) (ps : list (string * PropVal)) : option PropVal :=
  match assoc "initial" ps with
  | Some d => Some d
  | None => if inherits ps then PLabel <$> c_initial ctx else None
  end.

(** The transition used: the resolved variant's own [transition], else
    the component's [transition] prop ([getDefaultTransition]). *)
Definition transition_of (ctx : Ctx) (ps : list (string * PropVal)) : Transition :=
  match resolve (variants_of ps) (end_def ctx ps).1 ≫= v_transition with
  | Some t => t
  | None => default [] (transition_prop ps)
  end.

(** The stagger offset of the [i]-th variant child. *)
Definition offset (ctx : Ctx) (i : nat) (ps : list (string * PropVal)) : Z :=
  if inherits ps then (c_delay ctx + Z.of_nat i * c_stagger ctx)%Z else 0%Z.

Record Entry := {
  e_tag : string; e_key : option string;
  e_start : Target; e_end : Target; e_trigger : Trigger;
  e_delay : Z;                (** when the entrance starts, after its trigger *)
  e_written : option Z;       (** the [delay] of the component's [transition] prop *)
  e_exit : option Target; e_presence : bool }.

#[export] Instance Entry_eq_dec : EqDecision Entry.
Proof. solve_decision. Defined.

Definition entry (ctx : Ctx) (pres : bool) (i : nat) (t : string) (k : option string)
    (ps : list (string * PropVal)) : Entry :=
  let vs := variants_of ps in
  {| e_tag := t; e_key := k;
     e_start := default [] (v_target <$> resolve vs (start_def ctx ps));
     e_end := default [] (v_target <$> resolve vs (end_def ctx ps).1);
     e_trigger := (end_def ctx ps).2;
     e_delay := default (offset ctx i ps) (num "delay" (transition_of ctx ps));
     e_written := transition_prop ps ≫= num "delay";
     e_exit := v_target <$> resolve vs (assoc "exit" ps);
     e_presence := pres |}.

(** The context a component gives its children: its own labels when it
    controls variants, its offset and stagger when it is a variant node,
    its parent's context otherwise. *)
Definition child_ctx (ctx : Ctx) (i : nat) (ps : list (string * PropVal)) : Ctx :=
  let tr := transition_of ctx ps in
  let fwd := (offset ctx i ps + default 0%Z (num "delayChildren" tr))%Z in
  if isControllingVariants ps then
    {| c_initial := label_of (start_def ctx ps); c_animate := label_of (end_def ctx ps).1;
       c_trigger := (end_def ctx ps).2; c_delay := fwd; c_stagger := default 0%Z (num "staggerChildren" tr) |}
  else if isVariantNode ps then
    {| c_initial := c_initial ctx; c_animate := c_animate ctx; c_trigger := c_trigger ctx;
       c_delay := fwd; c_stagger := default 0%Z (num "staggerChildren" tr) |}
  else ctx.

Definition stagger_child (n : mnode) : bool :=
  match n with MNode _ _ ps _ => inherits ps | AnimatePresence _ => false end.

Fixpoint plan_children (f : Ctx -> bool -> nat -> mnode -> list Entry) (ctx : Ctx) (pres : bool)
    (j : nat) (cs : list mnode) : list Entry :=
  match cs with
  | [] => []
  | c :: cs' => f ctx pres j c ++ plan_children f ctx pres (if stagger_child c then S j else j) cs'
  end.

(** The entries of a tree in document order. *)
Fixpoint plan_node (ctx : Ctx) (pres : bool) (i : nat) (n : mnode) : list Entry :=
  match n with
  | MNode t k ps cs => entry ctx pres i t k ps :: plan_children plan_node (child_ctx ctx i ps) false 0 cs
  | AnimatePresence cs => plan_children plan_node ctx true 0 cs
  end.

(** Top-level components have no variant parent. *)
Definition plan (ns : list mnode) : list Entry := ns ≫= plan_node ctx0 false 0.

(** ** Poses over time *)

(** Whether the entrance has run, given the in-view observations of the
    element so far: [once] keeps it after the element leaves the
    viewport; without [once] it follows the last observation. *)
Definition active (e : Entry) (seen : list bool) : bool :=
  match e_trigger e with
  | Never => false
  | OnMount => true
  | OnInView once => if once then existsb id seen else bool_decide (last seen = Some true)
  end.

(** The values an element shows: the animation's target over the
    initial values. *)
Definition pose (e : Entry) (seen : list bool) : Target :=
  if active e seen then e_end e ++ e_start e else e_start e.

Definition rest_values : Target := [("opacity", Num 100); ("scale", Num 100); ("x", Num 0); ("y", Num 0)].

(** Fully visible, unscaled and in its layout position. *)
Definition at_rest (t : Target) : bool :=
  forallb (fun '(k, r) => match assoc k t with None => true | Some v => bool_decide (v = r) end) rest_values.

(** When a tree replaces another, the components that disappear play
    their [exit] only under [AnimatePresence]. *)
Definition removed (before after : list Entry) : list Entry :=
  filter (fun e => e ∉ after) before.

Definition exits_played (before after : list Entry) : list Target :=
  omap (fun e => if e_presence e then e_exit e else None) (removed before after).

(** The entries whose written [delay] is not the one they start with. *)
Definition overridden_delays (es : list Entry) : list (string * option string * Z * Z) :=
  omap (fun e => match e_written e with
                 | Some d => if bool_decide (d = e_delay e) then None else Some (e_tag e, e_key e, d, e_delay e)
                 | None => None
                 end) es.

(** The entrance of an element reaches its rest pose once triggered,
    and stays there. *)
Definition settles (e : Entry) : bool :=
  match e_trigger e with
  | OnMount | OnInView true => at_rest (e_end e ++ e_start e)
  | _ => false
  end.

(** The entry of the nav link [k] whose [transition.delay] is [z]. *)
Definition nav_entry (k : string) (z : Z) : Entry :=
  {| e_tag := "motion.a"; e_key := Some k;
     e_start := [("opacity", Num 0); ("y", Num (-1000))]; e_end := [("opacity", Num 100); ("y", Num 0)];
     e_trigger := OnMount; e_delay := z; e_written := Some z; e_exit := None; e_presence := false |}.

(** The [i]-th item, [i] from 1, of a [staggerContainer] list whose
    items write [transition={{ delay: 0.1 * index }}]: written and actual
    delay. *)
Definition stagger_rows (n : nat) : list (string * option string * Z * Z) :=
  (fun i => ("motion.li", Some (pretty i), (10 * Z.of_nat i)%Z, (20 * Z.of_nat i)%Z)) <$> seq 1 n.

(** ** Lemmas *)

Lemma plan_app l1 l2 : plan (l1 ++ l2) = plan l1 ++ plan l2.
Proof. apply bind_app. Qed.

Lemma nav_plan_entries ks e :
  e ∈ plan (omap id (map_index nav_motion_item ks)) -> exists k z, e = nav_entry k z.
Proof.
  unfold plan. rewrite list_elem_of_bind. intros (n & He & Hn).
  apply list_elem_of_omap in Hn as ([n'|] & Hn & Hn'); simplify_eq/=.
  apply elem_of_lookup_imap_1 in Hn as (i & k & Hk & _).
  unfold nav_motion_item in Hk. case_str k "hero"; simplify_eq/=.
  apply list_elem_of_singleton in He as ->. eauto.
Qed.

(** The state-independent components, the nav links, the mobile menu
    and the sections of the selected tab. *)
Lemma plan_page p ns :
  motion_page p = Some ns ->
  plan ns = plan [title_motion] ++ plan (omap id (map_index nav_motion_item (Object_keys (refs p)))) ++
            plan [theme_button_motion; menu_button_motion] ++
            plan (option_list (mobile_menu_motion (mobileMenuOpen p))) ++ plan (sections_motion (tab p)).
Proof.
  unfold motion_page. intros H.
  assert (E : ns = header_motion p ++ sections_motion (tab p)) by (destruct (mounted p); cbn [negb] in H; congruence).
  subst ns. unfold header_motion. by rewrite !plan_app, <- !app_assoc.
Qed.

(** The sections are those of one of three tab values. *)
Lemma sections_cases s :
  sections_motion s = sections_motion "professional-skills" \/
  sections_motion s = sections_motion "languages" \/ sections_motion s = sections_motion "".
Proof.
  destruct (String.eqb_spec s "professional-skills") as [->|H1]; [by left|].
  destruct (String.eqb_spec s "languages") as [->|H2]; [by right; left|].
  right; right. unfold sections_motion, skills_motion.
  by rewrite (proj2 (String.eqb_neq _ _) H1), (proj2 (String.eqb_neq _ _) H2).
Qed.

(** A property of every component but the mobile menu, from the nav
    entries and the finitely many state-independent trees. *)
Lemma plan_static_Forall (P : Entry -> Prop) ks s :
  (forall k z, P (nav_entry k z)) ->
  Forall P (plan [title_motion; theme_button_motion; menu_button_motion]) ->
  Forall (fun s => Forall P (plan (sections_motion s))) ["professional-skills"; "languages"; ""] ->
  Forall P (plan [title_motion] ++ plan (omap id (map_index nav_motion_item ks)) ++
            plan [theme_button_motion; menu_button_motion] ++ plan (sections_motion s)).
Proof.
  intros Hnav Hfix Hsec.
  change [title_motion; theme_button_motion; menu_button_motion]
    with ([title_motion] ++ [theme_button_motion; menu_button_motion]) in Hfix.
  rewrite plan_app, Forall_app in Hfix. rewrite !Forall_app. split_and!; try tauto.
  - apply Forall_forall. intros e (k & z & ->)%nav_plan_entries. apply Hnav.
  - rewrite !Forall_cons in Hsec. destruct Hsec as (H1 & H2 & H3 & _).
    by destruct (sections_cases s) as [E|[E|E]]; rewrite E.
Qed.

Lemma plan_page_Forall (P : Entry -> Prop) p ns :
  motion_page p = Some ns ->
  (forall k z, P (nav_entry k z)) ->
  Forall P (plan [title_motion; theme_button_motion; menu_button_motion]) ->
  Forall (fun b => Forall P (plan (option_list (mobile_menu_motion b)))) [true; false] ->
  Forall (fun s => Forall P (plan (sections_motion s))) ["professional-skills"; "languages"; ""] ->
  Forall P (plan ns).
Proof.
  intros Hm Hnav Hfix Hmenu Hsec. rewrite (plan_page p ns Hm).
  pose proof (plan_static_Forall P (Object_keys (refs p)) (tab p) Hnav Hfix Hsec) as Hs.
  rewrite !Forall_app in Hs. rewrite !Forall_app. rewrite !Forall_cons in Hmenu.
  destruct Hmenu as (Ht & Hf & _). split_and!; try tauto. by destruct (mobileMenuOpen p).
Qed.

Lemma settles_pose e seen : settles e = true -> true ∈ seen -> at_rest (pose e seen) = true.
Proof.
  unfold settles, pose, active. destruct (e_trigger e) as [| |[]]; try discriminate; intros Hs Hin; [done|].
  rewrite (proj2 (existsb_elem_of id seen)); [done|]. by exists true.
Qed.

(** Removing one element from a list of distinct others. *)
Lemma removed_middle A m B : m ∉ A ++ B -> removed (A ++ m :: B) (A ++ B) = [m].
Proof.
  intros Hm. unfold removed.
  assert (Hsub : forall X, X ⊆ A ++ B -> filter (fun e => e ∉ A ++ B) X = []).
  { induction X as [|x X IH]; intros HX; [done|]. rewrite filter_cons_False; [apply IH|]; set_solver. }
  rewrite filter_app, filter_cons_True by done. rewrite !Hsub by set_solver. done.
Qed.

Lemma overridden_delays_app es1 es2 :
  overridden_delays (es1 ++ es2) = overridden_delays es1 ++ overridden_delays es2.
Proof. apply omap_app. Qed.

Lemma overridden_delays_nil es : Forall (fun e => e_written e = Some (e_delay e)) es -> overridden_delays es = [].
Proof.
  induction 1 as [|e es He _ IH]; [done|]. unfold overridden_delays in *. simpl.
  rewrite He, bool_decide_eq_true_2 by done. exact IH.
Qed.

Lemma nav_overridden_delays ks : overridden_delays (plan (omap id (map_index nav_motion_item ks))) = [].
Proof.
  apply overridden_delays_nil, Forall_forall. intros e (k & z & ->)%nav_plan_entries. done.
Qed.

(** Closing the menu when nothing else changes. *)
Lemma removed_menu S1 S2 S3 S4 m :
  m ∉ S1 ++ S2 ++ S3 ++ S4 -> removed (S1 ++ S2 ++ S3 ++ [m] ++ S4) (S1 ++ S2 ++ S3 ++ [] ++ S4) = [m].
Proof.
  intros Hm. pose proof (removed_middle (S1 ++ S2 ++ S3) m S4) as H.
  rewrite <- !app_assoc in H. apply H, Hm.
Qed.

(** ** Properties of the animations *)

(** C21: once the page is mounted, every motion element settles: after
    its trigger has fired (on mount, or once the element has been in
    the viewport at least once, whatever happens after), it is fully
    opaque, unscaled and in its layout position. *)
Theorem page_animations_settle p ns :
  motion_page p = Some ns ->
  forall e seen, e ∈ plan ns -> true ∈ seen -> at_rest (pose e seen) = true.
Proof.
  intros Hm e seen He Hs. apply settles_pose; [|done]. revert e He. apply Forall_forall.
  apply (plan_page_Forall _ p); [done|intros; reflexivity|decide_prop..].
Qed.

Lemma page_animations_settle_witness :
  motion_page (setMounted true (initial_page None)) =
    Some (header_motion (setMounted true (initial_page None)) ++ sections_motion "professional-skills") /\
  at_rest (pose (nav_entry "about" 10) [true; false]) = true.
Proof.
  split; [reflexivity|].
  apply (page_animations_settle (setMounted true (initial_page None))
           (header_motion (setMounted true (initial_page None)) ++ sections_motion "professional-skills"));
    [reflexivity|decide_prop|decide_prop].
Defined.

(** C22: the [transition] a variant defines replaces the component's own
    [transition] prop, so four delays the code writes never take effect:
    the second About paragraph (line 294, [delay: 0.2]) fades in with the
    first, and the items of the duty lists (line 464) and of the module
    lists (lines 536, 553), written [delay: 0.1 * index], start at
    [0.2 * index] from [staggerChildren]; every other written delay is
    the one the element starts with. *)
Theorem variant_transition_overrides_delays p ns :
  motion_page p = Some ns ->
  overridden_delays (plan ns) =
    [("motion.p", None, 20%Z, 0%Z)] ++ stagger_rows 6 ++ stagger_rows 8 ++ stagger_rows 3 ++ stagger_rows 2.
Proof.
  intros Hm. rewrite (plan_page p ns Hm), !overridden_delays_app, nav_overridden_delays.
  destruct (mobileMenuOpen p); destruct (sections_cases (tab p)) as [E|[E|E]]; rewrite E; vm_compute; reflexivity.
Qed.

Lemma variant_transition_overrides_delays_witness :
  overridden_delays (plan (header_motion (setMounted true (initial_page None)) ++ sections_motion "professional-skills")) =
    [("motion.p", None, 20%Z, 0%Z)] ++ stagger_rows 6 ++ stagger_rows 8 ++ stagger_rows 3 ++ stagger_rows 2.
Proof. apply (variant_transition_overrides_delays (setMounted true (initial_page None))). reflexivity. Defined.

(** C23: the mobile menu declares an [exit] animation (line 164) but is
    not rendered under [AnimatePresence]: closing it removes exactly one
    motion element, the menu, whose [exit] is [{ opacity: 0, height: 0 }],
    and no exit animation plays: the menu disappears at once. *)
Theorem mobile_menu_exit_never_plays p ns ns' :
  live p = true -> mobileMenuOpen p = true ->
  motion_page p = Some ns -> motion_page (setMobileMenuOpen false p) = Some ns' ->
  exists e, removed (plan ns) (plan ns') = [e] /\
            e_exit e = Some [("opacity", Num 0); ("height", Num 0)] /\
            exits_played (plan ns) (plan ns') = [].
Proof.
  intros Hl Ho Hm Hm'. rewrite (plan_page p ns Hm), (plan_page _ ns' Hm').
  unfold setMobileMenuOpen. rewrite Hl. cbn [refs tab mobileMenuOpen]. rewrite Ho.
  pose proof (plan_static_Forall (fun e => e_exit e = None) (Object_keys (refs p)) (tab p)) as Hs.
  remember (plan (option_list (mobile_menu_motion true))) as M eqn:EM. vm_compute in EM. subst M.
  eexists. unfold exits_played. rewrite removed_menu; [split_and!; reflexivity|].
  intros Hin. assert (Hx : Forall (fun e => e_exit e = None)
    (plan [title_motion] ++ plan (omap id (map_index nav_motion_item (Object_keys (refs p)))) ++
     plan [theme_button_motion; menu_button_motion] ++ plan (sections_motion (tab p))))
    by (apply Hs; [done|decide_prop|decide_prop]).
  rewrite Forall_forall in Hx. specialize (Hx _ Hin). discriminate Hx.
Qed.

Lemma mobile_menu_exit_never_plays_witness :
  exists e, removed (plan (header_motion (setMobileMenuOpen true (setMounted true (initial_page None))) ++
                           sections_motion "professional-skills"))
                    (plan (header_motion (setMounted true (initial_page None)) ++ sections_motion "professional-skills"))
            = [e] /\ e_exit e = Some [("opacity", Num 0); ("height", Num 0)] /\
            exits_played (plan (header_motion (setMobileMenuOpen true (setMounted true (initial_page None))) ++
                                sections_motion "professional-skills"))
                         (plan (header_motion (setMounted true (initial_page None)) ++ sections_motion "professional-skills"))
            = [].
Proof.
  apply (mobile_menu_exit_never_plays (setMobileMenuOpen true (setMounted true (initial_page None)))); reflexivity.
Defined.

End Animations.
